(** * Image-editing Lambda handler: validation pipeline and audit-log contract

    A shallow embedding of [backend/src/lambda_function.py] ([lambda_handler])
    and the properties of its request validation, data-URI normalisation,
    timing and audit logging.

    Python values that reach the handler are JSON values; a Python [str] is
    modelled by the [string] of its UTF-8 bytes (the comma and the ASCII
    letters are single bytes that never occur inside a multi-byte sequence, so
    splitting on a comma and searching for an ASCII substring agree with the
    code-point versions).  The [print] statements of the handler only write
    to process output and are left out. *)

From Stdlib Require Import String Ascii List ZArith Bool Lia.
Import ListNotations.
Local Open Scope string_scope.
Set Warnings "-register-all".

(** ** Python strings *)

Module PyStr.

Definition comma : ascii := ","%char.

(** The double-quote character, for messages such as [Missing "mask" field]. *)
Definition dq : string := String (ascii_of_nat 34) EmptyString.

(** [sub in s] for Python strings: substring search. *)
Fixpoint contains (sub s : string) : bool :=
  if prefix sub s then true
  else match s with
       | EmptyString => false
       | String _ rest => contains sub rest
       end.

(** [s.split(",")]: the maximal comma-free segments, in order; never empty. *)
Fixpoint split_comma (s : string) : list string :=
  match s with
  | EmptyString => [EmptyString]
  | String c rest =>
      if Ascii.eqb c comma then EmptyString :: split_comma rest
      else match split_comma rest with
           | seg :: segs => String c seg :: segs
           | [] => [String c EmptyString]
           end
  end.

(** Text whose code points are all ASCII (every byte below 128). *)
Fixpoint is_ascii (s : string) : bool :=
  match s with
  | EmptyString => true
  | String c rest => (nat_of_ascii c <? 128)%nat && is_ascii rest
  end.

(** [s.lower()] for ASCII text: the letters A-Z become a-z.  It is used for
    ASCII text only; see [str_lower] for the rest. *)
Definition lower_ascii (c : ascii) : ascii :=
  let n := nat_of_ascii c in
  if (65 <=? n)%nat && (n <=? 90)%nat then ascii_of_nat (n + 32) else c.

Fixpoint lower (s : string) : string :=
  match s with
  | EmptyString => EmptyString
  | String c rest => String (lower_ascii c) (lower rest)
  end.

(** A string without any comma. *)
Fixpoint comma_free (s : string) : bool :=
  match s with
  | EmptyString => true
  | String c rest => negb (Ascii.eqb c comma) && comma_free rest
  end.

End PyStr.

(** ** Python values, exceptions and the primitive operations the handler uses *)

(** A JSON-derived Python value.  A [dict] keeps its insertion order (the
    order [list(d.keys())] reports); lookup takes the first binding of a key. *)
Inductive pyval : Type :=
| PNone
| PBool (b : bool)
| PInt (n : Z)
| PFloat (bits : Z)
| PStr (s : string)
| PList (items : list pyval)
| PDict (fields : list (string * pyval)).

Inductive pytype : Type := TNone | TBool | TInt | TFloat | TStr | TList | TDict.

Definition type_of (v : pyval) : pytype :=
  match v with
  | PNone => TNone | PBool _ => TBool | PInt _ => TInt | PFloat _ => TFloat
  | PStr _ => TStr | PList _ => TList | PDict _ => TDict
  end.

Definition type_name (t : pytype) : string :=
  match t with
  | TNone => "NoneType" | TBool => "bool" | TInt => "int" | TFloat => "float"
  | TStr => "str" | TList => "list" | TDict => "dict"
  end.

(** [str(type(v))], as an f-string renders it. *)
Definition class_repr (t : pytype) : string := "<class '" ++ type_name t ++ "'>".

(** The exception classes the handler tells apart in its [except] clauses;
    every other subclass of [Exception] is [OtherException]. *)
Inductive exn_class : Type :=
| KeyError | IndexError | TypeError | AttributeError | JSONDecodeError | OtherException.

(** A raised exception: its class and [str(e)]. *)
Record exn : Type := Exn { exn_cls : exn_class; exn_str : string }.

(** Errors the interpreter itself raises; the wording of their messages
    belongs to the Python runtime ([fault_msg] below). *)
Inductive fault : Type :=
| NotSubscriptable (t : pytype)
| BadIndex (t : pytype)
| NotIterable (t : pytype)
| NoAttribute (t : pytype) (attr : string)
| IndexOutOfRange.

(** The result of evaluating an expression or a call. *)
Inductive outcome (A : Type) : Type :=
| Returns (a : A)
| Raises (e : exn).
Arguments Returns {A} a.
Arguments Raises {A} e.

Definition obind {A B} (o : outcome A) (k : A -> outcome B) : outcome B :=
  match o with
  | Returns a => k a
  | Raises e => Raises e
  end.

Definition is_str (s : string) (v : pyval) : bool :=
  match v with
  | PStr s' => String.eqb s s'
  | _ => false
  end.

Fixpoint lookup (k : string) (d : list (string * pyval)) : option pyval :=
  match d with
  | [] => None
  | (k', v) :: rest => if String.eqb k k' then Some v else lookup k rest
  end.

Definition has_key (k : string) (d : list (string * pyval)) : bool :=
  match lookup k d with Some _ => true | None => false end.

Definition keys (d : list (string * pyval)) : list string := map fst d.

(** [list(d.keys())] as a Python list of strings. *)
Definition key_list (d : list (string * pyval)) : pyval := PList (map PStr (keys d)).

(** ** Audit records, responses and the collaborators of the handler *)

(** The keyword arguments of one [log_to_dynamodb] call.  [error_message]
    is [None] where the call leaves the argument out. *)
Record AuditRecord : Type := {
  request_id : string;
  model_id : string;
  prompt : pyval;
  mode : pyval;
  image_size : Z;
  mask_size : Z;
  output_size : Z;
  generation_time_ms : Z;
  success : bool;
  error_message : option string
}.

(** The text [json.dumps] produces, kept as the value it serialises. *)
Inductive json_text : Type := json_dumps (v : pyval).

Record Response : Type := {
  statusCode : Z;
  headers : pyval;
  body : json_text
}.

(** What the handler imports and calls: the clock and the identifier source,
    the Python runtime ([json.loads], message wording, and [lower_unicode]:
    what [str.lower()] gives on text that has code points outside ASCII,
    where lower-casing follows the Unicode tables), the helpers of
    [utils] and [titan_handler], and the Bedrock client.  [invoke_model]
    stands for lines 197-204 and returns the response object or raises;
    [read_body] stands for [response_bedrock.get('body').read()]. *)
Record Env : Type := {
  Time : Type;
  clock : nat -> Time;
  elapsed_ms : Time -> Time -> Z;
  uuid4 : string;
  json_loads : string -> outcome pyval;
  fault_msg : fault -> string;
  repr_str : string -> string;
  lower_unicode : string -> string;
  get_cors_headers : pyval;
  calculate_base64_size : pyval -> outcome Z;
  calculate_output_images_size : pyval -> outcome Z;
  log_to_dynamodb : AuditRecord -> outcome unit;
  prepare_titan_request : pyval -> pyval -> pyval -> pyval -> outcome pyval;
  Reply : Type;
  invoke_model : pyval -> string -> outcome Reply;
  read_body : Reply -> outcome string
}.

(** The same collaborators with another identifier drawn by [uuid.uuid4()]. *)
Definition with_uuid (u : string) (E : Env) : Env :=
  {| Time := Time E; clock := clock E; elapsed_ms := elapsed_ms E;
     uuid4 := u;
     json_loads := json_loads E; fault_msg := fault_msg E; repr_str := repr_str E;
     lower_unicode := lower_unicode E;
     get_cors_headers := get_cors_headers E;
     calculate_base64_size := calculate_base64_size E;
     calculate_output_images_size := calculate_output_images_size E;
     log_to_dynamodb := log_to_dynamodb E;
     prepare_titan_request := prepare_titan_request E;
     Reply := Reply E;
     invoke_model := invoke_model E;
     read_body := read_body E |}.

(** ** Effects: the clock, the logger and the remote call *)

Inductive io_event : Type :=
| EvClock (tick : nat)
| EvInvoke (request_body : pyval) (target : string)
| EvLog (r : AuditRecord).

(** The state an invocation threads: how often the clock was read, and the
    calls made so far, oldest first. *)
Record World : Type := { ticks : nat; trace : list io_event }.

Definition init_world : World := {| ticks := 0; trace := [] |}.

Definition emit (ev : io_event) (w : World) : World :=
  {| ticks := ticks w; trace := trace w ++ [ev] |}.

Definition M (A : Type) : Type := World -> outcome A * World.

Definition ret {A} (a : A) : M A := fun w => (Returns a, w).

Definition bind {A B} (c : M A) (k : A -> M B) : M B :=
  fun w => match c w with
           | (Returns a, w') => k a w'
           | (Raises e, w') => (Raises e, w')
           end.

Definition lift {A} (o : outcome A) : M A := fun w => (o, w).

(** [try: c  except Exception as e: h e]. *)
Definition try_except {A} (c : M A) (h : exn -> M A) : M A :=
  fun w => match c w with
           | (Returns a, w') => (Returns a, w')
           | (Raises e, w') => h e w'
           end.

Declare Scope py_scope.
Delimit Scope py_scope with py.
Notation "x <- c ;; k" := (bind c (fun x => k))
  (at level 61, c at next level, right associativity) : py_scope.
Notation "c ;; k" := (bind c (fun _ => k))
  (at level 61, right associativity) : py_scope.
Notation "'let!' x ':=' c 'in' k" := (obind c (fun x => k))
  (at level 61, x name, c at next level, right associativity).

(** The audit records handed to the Outcome Logger, oldest first. *)
Fixpoint audit_records (t : list io_event) : list AuditRecord :=
  match t with
  | [] => []
  | EvLog r :: rest => r :: audit_records rest
  | _ :: rest => audit_records rest
  end.

(** The fields of the object a response body serialises. *)
Definition body_fields (r : Response) : list (string * pyval) :=
  match body r with
  | json_dumps (PDict d) => d
  | json_dumps _ => []
  end.

(** What lines 139-144 bind. *)
Record Inputs : Type := {
  model : string;
  canvas_config : pyval;
  input_image_size : Z;
  input_mask_size : Z
}.

(** The parameters the second [try] block binds. *)
Record Params : Type := {
  prompt_content : pyval;
  painting_mode : pyval;
  mask_base64 : pyval;
  image_base64 : pyval
}.

Section Handler.

Variable E : Env.

(** *** Primitive operations *)

(** [k in v] for a string [k]. *)
Definition py_in (k : string) (v : pyval) : outcome bool :=
  match v with
  | PDict d => Returns (has_key k d)
  | PList l => Returns (existsb (is_str k) l)
  | PStr s => Returns (PyStr.contains k s)
  | _ => Raises (Exn TypeError (fault_msg E (NotIterable (type_of v))))
  end.

(** [v[k]] for a string [k]. *)
Definition py_getitem (v : pyval) (k : string) : outcome pyval :=
  match v with
  | PDict d =>
      match lookup k d with
      | Some x => Returns x
      | None => Raises (Exn KeyError (repr_str E k))
      end
  | PList _ | PStr _ => Raises (Exn TypeError (fault_msg E (BadIndex (type_of v))))
  | _ => Raises (Exn TypeError (fault_msg E (NotSubscriptable (type_of v))))
  end.

(** [v.keys()]. *)
Definition py_keys (v : pyval) : outcome (list string) :=
  match v with
  | PDict d => Returns (keys d)
  | _ => Raises (Exn AttributeError (fault_msg E (NoAttribute (type_of v) "keys")))
  end.

(** [v.get(k, default)]. *)
Definition py_get (v : pyval) (k : string) (default : pyval) : outcome pyval :=
  match v with
  | PDict d => Returns (match lookup k d with Some x => x | None => default end)
  | _ => Raises (Exn AttributeError (fault_msg E (NoAttribute (type_of v) "get")))
  end.

(** [s.lower()] on a string: A-Z to a-z on ASCII text, the runtime's
    Unicode lower-casing on any other text. *)
Definition str_lower (s : string) : string :=
  if PyStr.is_ascii s then PyStr.lower s else lower_unicode E s.

(** [v.lower()]. *)
Definition py_lower (v : pyval) : outcome string :=
  match v with
  | PStr s => Returns (str_lower s)
  | _ => Raises (Exn AttributeError (fault_msg E (NoAttribute (type_of v) "lower")))
  end.

(** [str(d.keys())]. *)
Definition str_dict_keys (ks : list string) : string :=
  "dict_keys([" ++ String.concat ", " (map (repr_str E) ks) ++ "])".

(** *** Data-URI prefix stripping (lines 105 and 114)

    The expression [s.split(",")[1] if "," in s else s] on a string. *)
Definition strip_str (s : string) : outcome string :=
  if PyStr.contains "," s then
    match nth_error (PyStr.split_comma s) 1 with
    | Some seg => Returns seg
    | None => Raises (Exn IndexError (fault_msg E IndexOutOfRange))
    end
  else Returns s.

(** The same expression on whatever value the field holds: a list or a
    dict supports [in] but has no [split]. *)
Definition strip_data_uri (v : pyval) : outcome pyval :=
  match v with
  | PStr s => let! r := strip_str s in Returns (PStr r)
  | _ =>
      let! has_comma := py_in "," v in
      if has_comma
      then Raises (Exn AttributeError (fault_msg E (NoAttribute (type_of v) "split")))
      else Returns v
  end.

(** *** Responses *)

Definition respond (code : Z) (payload : list (string * pyval)) : Response :=
  {| statusCode := code; headers := get_cors_headers E; body := json_dumps (PDict payload) |}.

Definition error_400 (msg : string) : Response := respond 400 [("error", PStr msg)].

(** *** Body extraction (lines 44-81) *)

(** The body of the first [try]: a response returned early, or [body]. *)
Definition parse_body (event : pyval) : outcome (Response + pyval) :=
  let! present := py_in "body" event in
  if negb present then
    let! ks := py_keys event in
    Returns (inl (respond 400 [("error", PStr "Missing body in request");
                               ("event_keys", PList (map PStr ks))]))
  else
    let! b := py_getitem event "body" in
    match b with
    | PDict _ => Returns (inr b)
    | PStr s => let! parsed := json_loads E s in Returns (inr parsed)
    | _ => Returns (inl (error_400 ("Invalid body type: " ++ class_repr (type_of b))))
    end.

(** The first [try] with its two [except] clauses.  A [JSONDecodeError] can
    only come from [json.loads], so in its handler [event] is a dict whose
    body is a string and the handler's [print] raises nothing. *)
Definition extract_body (event : pyval) : Response + pyval :=
  match parse_body event with
  | Returns r => r
  | Raises e =>
      match exn_cls e with
      | JSONDecodeError => inl (error_400 ("Invalid JSON in request body: " ++ exn_str e))
      | _ => inl (error_400 ("Error parsing request body: " ++ exn_str e))
      end
  end.

(** *** Parameter extraction (lines 84-136) *)

Definition missing_field (name : string) : string :=
  "Missing " ++ PyStr.dq ++ name ++ PyStr.dq ++ " field".

(** The body of the second [try]. *)
Definition read_params (body : pyval) : outcome (Response + Params) :=
  let! _ := py_keys body in
  let! has_prompt := py_in "prompt" body in
  if negb has_prompt then
    let! ks := py_keys body in
    Returns (inl (respond 400 [("error", PStr (missing_field "prompt"));
                               ("received_keys", PList (map PStr ks))]))
  else
    let! p := py_getitem body "prompt" in
    let! prompt_content := py_getitem p "text" in
    let! p' := py_getitem body "prompt" in
    let! painting_mode := py_getitem p' "mode" in
    let! has_mask := py_in "mask" body in
    if negb has_mask then Returns (inl (error_400 (missing_field "mask")))
    else
      let! m := py_getitem body "mask" in
      let! mask_base64 := strip_data_uri m in
      let! has_image := py_in "base_image" body in
      if negb has_image then Returns (inl (error_400 (missing_field "base_image")))
      else
        let! i := py_getitem body "base_image" in
        let! image_base64 := strip_data_uri i in
        Returns (inr {| prompt_content := prompt_content;
                        painting_mode := painting_mode;
                        mask_base64 := mask_base64;
                        image_base64 := image_base64 |}).

(** The second [try] with its three [except] clauses; the [KeyError]
    handler itself evaluates [body.keys()]. *)
Definition get_params (body : pyval) : outcome (Response + Params) :=
  match read_params body with
  | Returns r => Returns r
  | Raises e =>
      match exn_cls e with
      | KeyError =>
          let! ks := py_keys body in
          Returns (inl (respond 400
            [("error", PStr ("Missing required field: " ++ exn_str e));
             ("body_structure", PStr (str_dict_keys ks))]))
      | IndexError => Returns (inl (error_400 "Malformed base64 image data"))
      | _ => Returns (inl (error_400 ("Error extracting parameters: " ++ exn_str e)))
      end
  end.

(** *** Model resolution and input sizes (lines 139-144, outside every [try]) *)

Definition resolve_inputs (body : pyval) : outcome Inputs :=
  let! requested := py_get body "model" (PStr "titan") in
  let! model := py_lower requested in
  let! canvas_config := py_get body "canvas_config" (PDict []) in
  let! raw_image := py_getitem body "base_image" in
  let! image_size := calculate_base64_size E raw_image in
  let! raw_mask := py_getitem body "mask" in
  let! mask_size := calculate_base64_size E raw_mask in
  Returns {| model := model; canvas_config := canvas_config;
             input_image_size := image_size; input_mask_size := mask_size |}.

(** *** Reading the reply (lines 210-214, inside the last [try]) *)

Definition read_reply (reply : Reply E) : outcome (pyval * Z) :=
  let! text := read_body E reply in
  let! response_output := json_loads E text in
  let! images := py_get response_output "images" PNone in
  let! output_size := calculate_output_images_size E images in
  Returns (images, output_size).

(** *** Effects *)

Local Open Scope py_scope.

(** [time.time()]. *)
Definition time_time : M (Time E) :=
  fun w => (Returns (clock E (ticks w)),
            {| ticks := S (ticks w); trace := trace w ++ [EvClock (ticks w)] |}).

(** A call of [log_to_dynamodb]: the record is handed over, then the call
    returns or raises. *)
Definition log (r : AuditRecord) : M unit :=
  fun w => (log_to_dynamodb E r, emit (EvLog r) w).

(** The Bedrock call of lines 197-204. *)
Definition invoke (request_body : pyval) (target : string) : M (Reply E) :=
  fun w => (invoke_model E request_body target, emit (EvInvoke request_body target) w).

Definition titan_model_id : string := "amazon.titan-image-generator-v2:0".

(** [model_id if 'model_id' in locals() else 'unknown']. *)
Definition model_id_or_unknown (local : option string) : string :=
  match local with
  | Some m => m
  | None => "unknown"
  end.

(** *** The handler (lines 25-268) *)

Definition lambda_handler (event : pyval) : M Response :=
  let request_id := uuid4 E in
  start_time <- time_time ;;
  match extract_body event with
  | inl resp => ret resp
  | inr body =>
    extracted <- lift (get_params body) ;;
    match extracted with
    | inl resp => ret resp
    | inr p =>
      inputs <- lift (resolve_inputs body) ;;
      let model := model inputs in
      let image_size := input_image_size inputs in
      let mask_size := input_mask_size inputs in
      if negb (String.eqb model "titan") then
        let error_msg := "Unsupported model: " ++ model ++ ". Supported models: titan" in
        now <- time_time ;;
        log {| request_id := request_id; model_id := "unknown";
               prompt := prompt_content p; mode := painting_mode p;
               image_size := image_size; mask_size := mask_size; output_size := 0;
               generation_time_ms := elapsed_ms E now start_time;
               success := false; error_message := Some error_msg |} ;;
        ret (error_400 error_msg)
      else
        match prepare_titan_request E (prompt_content p) (painting_mode p)
                                      (mask_base64 p) (image_base64 p) with
        | Raises e =>
            (* the assignment of model_id was not reached *)
            let model_id_local : option string := None in
            let error_msg := "Error preparing request for " ++ model ++ ": " ++ exn_str e in
            now <- time_time ;;
            log {| request_id := request_id; model_id := model_id_or_unknown model_id_local;
                   prompt := prompt_content p; mode := painting_mode p;
                   image_size := image_size; mask_size := mask_size; output_size := 0;
                   generation_time_ms := elapsed_ms E now start_time;
                   success := false; error_message := Some error_msg |} ;;
            ret (error_400 error_msg)
        | Returns request_body =>
            let model_id := titan_model_id in
            try_except
              (bedrock_start_time <- time_time ;;
               reply <- invoke request_body model_id ;;
               now <- time_time ;;
               let generation_time_ms := elapsed_ms E now bedrock_start_time in
               decoded <- lift (read_reply reply) ;;
               let images := fst decoded in
               let output_size := snd decoded in
               log {| request_id := request_id; model_id := model_id;
                      prompt := prompt_content p; mode := painting_mode p;
                      image_size := image_size; mask_size := mask_size;
                      output_size := output_size;
                      generation_time_ms := generation_time_ms;
                      success := true; error_message := None |} ;;
               ret (respond 200 [("images", images);
                                 ("model_used", PStr model);
                                 ("request_id", PStr request_id);
                                 ("generation_time_ms", PInt generation_time_ms)]))
              (fun e =>
               let error_message := exn_str e in
               now <- time_time ;;
               let generation_time_ms := elapsed_ms E now start_time in
               log {| request_id := request_id; model_id := model_id;
                      prompt := prompt_content p; mode := painting_mode p;
                      image_size := image_size; mask_size := mask_size; output_size := 0;
                      generation_time_ms := generation_time_ms;
                      success := false; error_message := Some error_message |} ;;
               ret (respond 500 [("error", PStr error_message);
                                 ("model_attempted", PStr model);
                                 ("request_id", PStr request_id)]))
        end
    end
  end.

(** One invocation, from a fresh trace. *)
Definition run (event : pyval) : outcome Response * World :=
  lambda_handler event init_world.

Definition records_of (event : pyval) : list AuditRecord :=
  audit_records (trace (snd (run event))).

(** The request an event carries once body extraction, parameter
    extraction and model resolution have all gone through; [None] when one
    of them returned a response or raised. *)
Definition validated (event : pyval) : option (pyval * Params * Inputs) :=
  match extract_body event with
  | inl _ => None
  | inr body =>
      match get_params body, resolve_inputs body with
      | Returns (inr p), Returns i => Some (body, p, i)
      | _, _ => None
      end
  end.

(** The audit record of a failed attempt and of a successful one, as the
    calls of lines 150, 175, 217 and 246 fill them in. *)
Definition failure_record (p : Params) (i : Inputs) (target : string)
    (elapsed : Z) (msg : string) : AuditRecord :=
  {| request_id := uuid4 E; model_id := target;
     prompt := prompt_content p; mode := painting_mode p;
     image_size := input_image_size i; mask_size := input_mask_size i;
     output_size := 0; generation_time_ms := elapsed;
     success := false; error_message := Some msg |}.

Definition success_record (p : Params) (i : Inputs) (out_size elapsed : Z) : AuditRecord :=
  {| request_id := uuid4 E; model_id := titan_model_id;
     prompt := prompt_content p; mode := painting_mode p;
     image_size := input_image_size i; mask_size := input_mask_size i;
     output_size := out_size; generation_time_ms := elapsed;
     success := true; error_message := None |}.

(** The time between two readings of the clock, by their position. *)
Definition elapsed_between (later earlier : nat) : Z :=
  elapsed_ms E (clock E later) (clock E earlier).

Definition unsupported_msg (m : string) : string :=
  "Unsupported model: " ++ m ++ ". Supported models: titan".

Definition success_response (i : Inputs) (images : pyval) (elapsed : Z) : Response :=
  respond 200 [("images", images); ("model_used", PStr (model i));
               ("request_id", PStr (uuid4 E)); ("generation_time_ms", PInt elapsed)].

Definition upstream_failure_response (i : Inputs) (msg : string) : Response :=
  respond 500 [("error", PStr msg); ("model_attempted", PStr (model i));
               ("request_id", PStr (uuid4 E))].

End Handler.

Arguments run E event : simpl never.

(** The world right after the handler read [start_time]. *)
Definition started : World := {| ticks := 1; trace := [EvClock 0] |}.

(** ** The spec's reading of prefix stripping *)

(** The substring after the first comma, to the end of the string. *)
Fixpoint after_first_comma (s : string) : string :=
  match s with
  | EmptyString => EmptyString
  | String c rest => if Ascii.eqb c PyStr.comma then rest else after_first_comma rest
  end.

(** The substring before the first comma (the whole string if it has none). *)
Fixpoint until_comma (s : string) : string :=
  match s with
  | EmptyString => EmptyString
  | String c rest =>
      if Ascii.eqb c PyStr.comma then EmptyString else String c (until_comma rest)
  end.

(** ** Test doubles

    Stand-ins for the collaborators, in the manner of the mocked scenarios of
    the spec, to run the handler on concrete events. *)

Module Mock.

Definition fault_text (f : fault) : string :=
  match f with
  | NotSubscriptable t => "'" ++ type_name t ++ "' object is not subscriptable"
  | BadIndex t => type_name t ++ " indices must be integers"
  | NotIterable t => "argument of type '" ++ type_name t ++ "' is not iterable"
  | NoAttribute t a => "'" ++ type_name t ++ "' object has no attribute '" ++ a ++ "'"
  | IndexOutOfRange => "list index out of range"
  end.

Definition quote (s : string) : string := "'" ++ s ++ "'".

(** The reply of the mocked invoker: an object with one image. *)
Definition reply_text : string :=
  "{" ++ PyStr.dq ++ "images" ++ PyStr.dq ++ ": [" ++ PyStr.dq ++ "QUJD" ++ PyStr.dq ++ "]}".

Definition loads (s : string) : outcome pyval :=
  if String.eqb s reply_text
  then Returns (PDict [("images", PList [PStr "QUJD"])])
  else Raises (Exn JSONDecodeError "Expecting value: line 1 column 1 (char 0)").

Definition b64_size (v : pyval) : outcome Z :=
  match v with
  | PStr s => Returns (Z.of_nat (String.length s) * 3 / 4)%Z
  | _ => Raises (Exn TypeError "argument should be a string")
  end.

Definition outputs_size (v : pyval) : outcome Z :=
  match v with
  | PNone => Returns 0%Z
  | PList l =>
      fold_right (fun x acc => let! n := b64_size x in let! m := acc in Returns (n + m)%Z)
                 (Returns 0%Z) l
  | _ => Raises (Exn TypeError "object is not iterable")
  end.

Definition prepare (text mode mask image : pyval) : outcome pyval :=
  Returns (PDict [("taskType", mode); ("text", text); ("maskImage", mask); ("image", image)]).

(** Clock readings in milliseconds: 0, 100, 400, 900, ...; text beyond ASCII
    has its ASCII letters lower-cased and the rest kept. *)
Definition env (logger : AuditRecord -> outcome unit) (reply : outcome string) : Env :=
  {| Time := Z;
     clock := fun n => (100 * Z.of_nat (n * n))%Z;
     elapsed_ms := fun t1 t0 => (t1 - t0)%Z;
     uuid4 := "3f2b8c1e-5d4a-4e6f-9a7b-0c1d2e3f4a5b";
     json_loads := loads;
     fault_msg := fault_text;
     repr_str := quote;
     lower_unicode := PyStr.lower;
     get_cors_headers := PDict [("Access-Control-Allow-Origin", PStr "*")];
     calculate_base64_size := b64_size;
     calculate_output_images_size := outputs_size;
     log_to_dynamodb := logger;
     prepare_titan_request := prepare;
     Reply := string;
     invoke_model := fun _ _ => reply;
     read_body := fun text => Returns text |}.

Definition quiet_logger (r : AuditRecord) : outcome unit := Returns tt.

(** A logging call that fails: the table cannot be reached. *)
Definition down_sink (r : AuditRecord) : outcome unit :=
  Raises (Exn OtherException "Could not connect to the endpoint URL").

Definition transport_error : exn := Exn OtherException "Read timeout on endpoint URL".

(** The happy-path environment and one whose invoker fails. *)
Definition ok_env : Env := env quiet_logger (Returns reply_text).
Definition failing_env : Env := env quiet_logger (Raises transport_error).




Definition cat_prompt : pyval :=
  PDict [("text", PStr "a cat"); ("mode", PStr "INPAINTING")].

Definition event_of (body : pyval) : pyval := PDict [("body", body)].

Definition valid_body : pyval :=
  PDict [("prompt", cat_prompt);
         ("mask", PStr "data:image/png;base64,AAAA");
         ("base_image", PStr "QUJDREVG")].

Definition body_with_model (m : pyval) : pyval :=
  PDict [("prompt", cat_prompt);
         ("mask", PStr "AAAA");
         ("base_image", PStr "QUJDREVG");
         ("model", m)].

Definition body_without_mask : pyval :=
  PDict [("prompt", cat_prompt); ("base_image", PStr "QUJDREVG")].

Definition body_with_empty_prompt : pyval :=
  PDict [("prompt", PDict []); ("base_image", PStr "QUJDREVG")].

End Mock.

(** The events that carry a body the handler can work on: an object whose
    [body] entry is an object or a string. *)
Definition has_usable_body (event : pyval) : bool :=
  match event with
  | PDict d =>
      match lookup "body" d with
      | Some (PDict _) | Some (PStr _) => true
      | _ => false
      end
  | _ => false
  end.

(** An audit record under another request identifier. *)
Definition with_request_id (u : string) (r : AuditRecord) : AuditRecord :=
  {| request_id := u; model_id := model_id r; prompt := prompt r; mode := mode r;
     image_size := image_size r; mask_size := mask_size r; output_size := output_size r;
     generation_time_ms := generation_time_ms r; success := success r;
     error_message := error_message r |}.

(** The values of [mask] and [base_image] that line 105 and line 114 let
    through: a string, or a list or an object that has no comma among its
    items or keys. *)
Definition acceptable_field (v : pyval) : bool :=
  match v with
  | PStr _ => true
  | PList items => negb (existsb (is_str ",") items)
  | PDict fields => negb (has_key "," fields)
  | _ => false
  end.

(** ** Counting the remote calls of a run *)

(** How many times the Bedrock client was called. *)
Fixpoint invoke_count (t : list io_event) : nat :=
  match t with
  | [] => 0
  | EvInvoke _ _ :: rest => S (invoke_count rest)
  | _ :: rest => invoke_count rest
  end.

(** ** Further test doubles *)

Module MockMore.

Definition build_error : exn := Exn OtherException "Unsupported painting mode".

(** The collaborators of [Mock.ok_env] with other JSON decoding, request
    building and reply. *)
Definition variant (loads : string -> outcome pyval)
    (prepare : pyval -> pyval -> pyval -> pyval -> outcome pyval)
    (reply : outcome string) : Env :=
  {| Time := Z;
     clock := clock Mock.ok_env;
     elapsed_ms := elapsed_ms Mock.ok_env;
     uuid4 := uuid4 Mock.ok_env;
     json_loads := loads;
     fault_msg := Mock.fault_text;
     repr_str := Mock.quote;
     lower_unicode := PyStr.lower;
     get_cors_headers := get_cors_headers Mock.ok_env;
     calculate_base64_size := Mock.b64_size;
     calculate_output_images_size := Mock.outputs_size;
     log_to_dynamodb := Mock.quiet_logger;
     prepare_titan_request := prepare;
     Reply := string;
     invoke_model := fun _ _ => reply;
     read_body := fun text => Returns text |}.

(** A request builder that refuses the request. *)
Definition broken_builder_env : Env :=
  variant Mock.loads (fun _ _ _ _ => Raises build_error) (Returns Mock.reply_text).

(** A service whose reply is an object without [images]. *)
Definition no_images_env : Env :=
  variant (fun _ => Returns (PDict [("message", PStr "throttled")])) Mock.prepare
          (Returns "{}").

(** A service whose reply is not JSON at all. *)
Definition garbled_reply_env : Env :=
  variant Mock.loads Mock.prepare (Returns "<html>Bad Gateway</html>").

(** A JSON decoder for the one body text the API-Gateway sample carries. *)
Definition quoted (s : string) : string := PyStr.dq ++ s ++ PyStr.dq.

Definition body_text : string :=
  "{" ++ quoted "prompt" ++ ": {" ++ quoted "text" ++ ": " ++ quoted "a cat" ++ ", "
      ++ quoted "mode" ++ ": " ++ quoted "INPAINTING" ++ "}, "
      ++ quoted "mask" ++ ": " ++ quoted "data:image/png;base64,AAAA" ++ ", "
      ++ quoted "base_image" ++ ": " ++ quoted "QUJDREVG" ++ "}".

Definition gateway_env : Env :=
  variant (fun s => if String.eqb s body_text then Returns Mock.valid_body
                    else Mock.loads s)
          Mock.prepare (Returns Mock.reply_text).

Definition body_with_uri_image : pyval :=
  PDict [("prompt", Mock.cat_prompt);
         ("mask", PStr "data:image/png;base64,AAAA");
         ("base_image", PStr "data:image/png;base64,QUJDREVG")].

End MockMore.

(** * Properties *)

(** ** Strings *)

Lemma contains_comma (s : string) :
  PyStr.contains "," s = negb (PyStr.comma_free s).
Proof.
  induction s as [|c rest IH]; [reflexivity|].
  cbn [PyStr.contains PyStr.comma_free prefix].
  destruct (ascii_dec "," c) as [<-|Hne].
  - destruct rest; reflexivity.
  - rewrite IH. destruct (Ascii.eqb_spec c PyStr.comma) as [->|_].
    + now contradiction Hne.
    + reflexivity.
Qed.

Lemma split_comma_shape (s : string) :
  PyStr.split_comma s =
  until_comma s ::
    (if PyStr.comma_free s then [] else PyStr.split_comma (after_first_comma s)).
Proof.
  induction s as [|c rest IH]; [reflexivity|].
  cbn [PyStr.split_comma until_comma PyStr.comma_free after_first_comma].
  destruct (Ascii.eqb c PyStr.comma); cbn [negb andb].
  - reflexivity.
  - now rewrite IH.
Qed.

Lemma until_comma_free (s : string) : PyStr.comma_free (until_comma s) = true.
Proof.
  induction s as [|c rest IH]; [reflexivity|].
  cbn [until_comma]. destruct (Ascii.eqb c PyStr.comma) eqn:Hc; [reflexivity|].
  cbn [PyStr.comma_free]. now rewrite Hc, IH.
Qed.

Lemma until_comma_id (s : string) : PyStr.comma_free s = true -> until_comma s = s.
Proof.
  induction s as [|c rest IH]; [reflexivity|].
  cbn [PyStr.comma_free until_comma].
  destruct (Ascii.eqb c PyStr.comma); cbn [negb andb]; [discriminate|].
  intros H. now rewrite IH.
Qed.

(** What line 105 computes on a string, in closed form. *)
Lemma strip_str_closed_form (E : Env) (s : string) :
  strip_str E s =
  Returns (if PyStr.contains "," s then until_comma (after_first_comma s) else s).
Proof.
  unfold strip_str. rewrite contains_comma.
  destruct (PyStr.comma_free s) eqn:Hs; cbn [negb]; [reflexivity|].
  rewrite split_comma_shape, Hs. cbn [nth_error].
  now rewrite split_comma_shape.
Qed.

Lemma strip_str_comma_free (E : Env) (s : string) :
  PyStr.comma_free s = true -> strip_str E s = Returns s.
Proof.
  intros H. rewrite strip_str_closed_form, contains_comma, H. reflexivity.
Qed.

(** ** Stepping through the stages *)

Ltac split_outcome :=
  match goal with
  | H : context [obind ?o _] |- _ =>
      let Ho := fresh "Ho" in destruct o eqn:Ho; cbn [obind] in H; try discriminate H
  | H : context [if negb ?b then _ else _] |- _ =>
      let Hb := fresh "Hb" in destruct b eqn:Hb; cbn [negb] in H; try discriminate H
  end.

Lemma read_params_fields (E : Env) (body : pyval) (p : Params) :
  read_params E body = Returns (inr p) ->
  exists m i,
    py_getitem E body "mask" = Returns m /\
    py_getitem E body "base_image" = Returns i /\
    strip_data_uri E m = Returns (mask_base64 p) /\
    strip_data_uri E i = Returns (image_base64 p).
Proof.
  unfold read_params. intros H.
  repeat split_outcome.
  injection H as <-. cbn [mask_base64 image_base64].
  do 2 eexists. repeat split; first [reflexivity | eassumption].
Qed.

(** C4 (as amended).  On a string field the stripping expression returns,
    when the field has a comma, the segment between its first comma and the
    next one (or the end of the string), and the field itself otherwise; so
    it returns the whole remainder after the first comma exactly when that
    remainder has no further comma.  The handler applies it to [mask] and to
    [base_image], each on its own. *)
Theorem strip_data_uri_takes_segment (E : Env) :
  (forall s, strip_str E s =
             Returns (if PyStr.contains "," s
                      then until_comma (after_first_comma s) else s)) /\
  (forall s, PyStr.comma_free (after_first_comma s) = true ->
             strip_str E s =
             Returns (if PyStr.contains "," s then after_first_comma s else s)) /\
  (forall s, strip_data_uri E (PStr s) = obind (strip_str E s) (fun r => Returns (PStr r))) /\
  (forall body p,
      read_params E body = Returns (inr p) ->
      exists m i,
        py_getitem E body "mask" = Returns m /\
        py_getitem E body "base_image" = Returns i /\
        strip_data_uri E m = Returns (mask_base64 p) /\
        strip_data_uri E i = Returns (image_base64 p)).
Proof.
  repeat split.
  - apply strip_str_closed_form.
  - intros s H. rewrite strip_str_closed_form. now rewrite (until_comma_id _ H).
  - apply read_params_fields.
Qed.

(** C4, a run: the mask of the sample body arrives as a data URI and is
    stripped, the base image arrives raw and is kept. *)
Lemma strip_data_uri_takes_segment_witness :
  exists p,
    read_params Mock.ok_env Mock.valid_body = Returns (inr p) /\
    mask_base64 p = PStr "AAAA" /\ image_base64 p = PStr "QUJDREVG" /\
    exists m i,
      py_getitem Mock.ok_env Mock.valid_body "mask" = Returns m /\
      py_getitem Mock.ok_env Mock.valid_body "base_image" = Returns i /\
      strip_data_uri Mock.ok_env m = Returns (mask_base64 p) /\
      strip_data_uri Mock.ok_env i = Returns (image_base64 p).
Proof.
  eexists. split; [reflexivity|]. split; [reflexivity|]. split; [reflexivity|].
  apply (proj2 (proj2 (proj2 (strip_data_uri_takes_segment Mock.ok_env)))).
  reflexivity.
Defined.

(** C4, as stated, fails: with two commas the expression returns the middle
    segment, not everything after the first comma. *)
Lemma strip_not_entire_remainder :
  strip_str Mock.ok_env "data:image/png;base64,AAAA,BBBB" = Returns "AAAA" /\
  after_first_comma "data:image/png;base64,AAAA,BBBB" = "AAAA,BBBB" /\
  PyStr.contains "," "data:image/png;base64,AAAA,BBBB" = true /\
  strip_str Mock.ok_env "data:image/png;base64,AAAA,BBBB" <>
    Returns (after_first_comma "data:image/png;base64,AAAA,BBBB").
Proof. repeat split. discriminate. Qed.

Lemma strip_str_result_comma_free (E : Env) (s r : string) :
  strip_str E s = Returns r -> PyStr.comma_free r = true.
Proof.
  rewrite strip_str_closed_form, contains_comma. intros [= <-].
  destruct (PyStr.comma_free s) eqn:Hs; cbn [negb]; [exact Hs|apply until_comma_free].
Qed.

(** Whatever the stripping expression returns, it returns again unchanged. *)
Lemma strip_data_uri_fixed (E : Env) (v r : pyval) :
  strip_data_uri E v = Returns r -> strip_data_uri E r = Returns r.
Proof.
  destruct v; cbn [strip_data_uri py_in obind type_of]; try discriminate.
  - destruct (strip_str E s) as [r'|e] eqn:Hs; cbn [obind]; [|discriminate].
    intros [= <-]. cbn [strip_data_uri].
    now rewrite (strip_str_comma_free E r' (strip_str_result_comma_free E s r' Hs)).
  - destruct (existsb (is_str ",") items) eqn:Hex; [discriminate|].
    intros [= <-]. cbn [strip_data_uri py_in obind]. now rewrite Hex.
  - destruct (has_key "," fields) eqn:Hex; [discriminate|].
    intros [= <-]. cbn [strip_data_uri py_in obind]. now rewrite Hex.
Qed.

(** C5.  The normalisation the handler applies to [mask] and [base_image]
    (lines 105 and 114) is idempotent.  On a string it always returns, and
    applying it to its result changes nothing; on any value, what it returns
    it returns again unchanged; the parameters the extraction hands on are
    the normalised fields of the body and are themselves fixed by the
    normalisation.  The data URI [data:image/png;base64,AAAA] normalises to
    [AAAA], and so does [AAAA] itself. *)
Theorem strip_idempotent (E : Env) :
  (forall s, exists r, strip_str E s = Returns r /\ strip_str E r = Returns r) /\
  strip_str E "data:image/png;base64,AAAA" = Returns "AAAA" /\
  strip_str E "AAAA" = Returns "AAAA" /\
  (forall s, exists r,
      strip_data_uri E (PStr s) = Returns (PStr r) /\
      strip_data_uri E (PStr r) = Returns (PStr r)) /\
  (forall v r, strip_data_uri E v = Returns r -> strip_data_uri E r = Returns r) /\
  strip_data_uri E (PStr "data:image/png;base64,AAAA") = Returns (PStr "AAAA") /\
  strip_data_uri E (PStr "AAAA") = Returns (PStr "AAAA") /\
  (forall body p,
      read_params E body = Returns (inr p) ->
      (exists m i,
          py_getitem E body "mask" = Returns m /\
          py_getitem E body "base_image" = Returns i /\
          strip_data_uri E m = Returns (mask_base64 p) /\
          strip_data_uri E i = Returns (image_base64 p)) /\
      strip_data_uri E (mask_base64 p) = Returns (mask_base64 p) /\
      strip_data_uri E (image_base64 p) = Returns (image_base64 p)).
Proof.
  assert (Hstr : forall s, exists r, strip_str E s = Returns r /\ strip_str E r = Returns r).
  { intros s. eexists. split; [apply strip_str_closed_form|].
    apply strip_str_comma_free.
    rewrite contains_comma.
    destruct (PyStr.comma_free s) eqn:Hs; cbn [negb]; [exact Hs|apply until_comma_free]. }
  split; [exact Hstr|]. do 2 (split; [reflexivity|]).
  split.
  { intros s. destruct (Hstr s) as (r & H1 & H2). exists r.
    cbn [strip_data_uri]. now rewrite H1, H2. }
  split; [apply strip_data_uri_fixed|]. do 2 (split; [reflexivity|]).
  intros body p Hp.
  destruct (read_params_fields E body p Hp) as (m & i & Hm & Hi & Hsm & Hsi).
  split; [exists m, i; auto|].
  split; [exact (strip_data_uri_fixed E m _ Hsm) | exact (strip_data_uri_fixed E i _ Hsi)].
Qed.

(** C5, two runs: the sample body carries its mask as a data URI; with the
    raw payload in its place the extraction hands on the same parameters. *)
Lemma strip_idempotent_witness :
  exists p,
    read_params Mock.ok_env Mock.valid_body = Returns (inr p) /\
    read_params Mock.ok_env
      (PDict [("prompt", Mock.cat_prompt); ("mask", PStr "AAAA");
              ("base_image", PStr "QUJDREVG")]) = Returns (inr p) /\
    mask_base64 p = PStr "AAAA" /\
    strip_data_uri Mock.ok_env (mask_base64 p) = Returns (mask_base64 p) /\
    strip_data_uri Mock.ok_env (image_base64 p) = Returns (image_base64 p).
Proof.
  destruct (strip_idempotent Mock.ok_env) as (_ & _ & _ & _ & _ & _ & _ & Hparams).
  eexists. do 3 (split; [reflexivity|]).
  exact (proj2 (Hparams Mock.valid_body _ eq_refl)).
Defined.

(** ** The stages never let a response carry the request identifier *)

Ltac run_handler :=
  cbv beta iota zeta delta
    [run records_of lambda_handler bind lift ret time_time log invoke try_except
     emit init_world ticks trace fst snd started].

Lemma extract_body_400 (E : Env) (event : pyval) (resp : Response) :
  extract_body E event = inl resp ->
  statusCode resp = 400%Z /\ lookup "request_id" (body_fields resp) = None.
Proof.
  unfold extract_body, parse_body. intros H.
  destruct (py_in E "body" event) as [present|e]; cbn [obind] in H.
  - destruct present; cbn [negb] in H.
    + destruct (py_getitem E event "body") as [b|e]; cbn [obind] in H.
      * destruct b; try discriminate H; try (injection H as <-; split; reflexivity).
        destruct (json_loads E s) as [v|e]; cbn [obind] in H; [discriminate|].
        destruct (exn_cls e); injection H as <-; split; reflexivity.
      * destruct (exn_cls e); injection H as <-; split; reflexivity.
    + destruct (py_keys E event) as [ks|e]; cbn [obind] in H.
      * injection H as <-; split; reflexivity.
      * destruct (exn_cls e); injection H as <-; split; reflexivity.
  - destruct (exn_cls e); injection H as <-; split; reflexivity.
Qed.

Lemma read_params_400 (E : Env) (body : pyval) (resp : Response) :
  read_params E body = Returns (inl resp) ->
  statusCode resp = 400%Z /\ lookup "request_id" (body_fields resp) = None.
Proof.
  unfold read_params. intros H.
  repeat split_outcome; injection H as <-; split; reflexivity.
Qed.

Lemma get_params_400 (E : Env) (body : pyval) (resp : Response) :
  get_params E body = Returns (inl resp) ->
  statusCode resp = 400%Z /\ lookup "request_id" (body_fields resp) = None.
Proof.
  unfold get_params. intros H.
  destruct (read_params E body) as [r|e] eqn:Hr.
  - injection H as ->. exact (read_params_400 E body resp Hr).
  - destruct (exn_cls e); try (injection H as <-; split; reflexivity).
    destruct (py_keys E body); cbn [obind] in H; [|discriminate].
    injection H as <-; split; reflexivity.
Qed.

(** Parameter extraction converts every error of its [try] body. *)
Lemma get_params_returns (E : Env) (body : pyval) :
  exists r, get_params E body = Returns r.
Proof.
  unfold get_params.
  destruct (read_params E body) as [r|e] eqn:Hr; [eauto|].
  destruct (exn_cls e) eqn:Hc; eauto.
  unfold read_params in Hr.
  destruct (py_keys E body) as [ks|e'] eqn:Hk; cbn [obind]; [eauto|].
  cbn [obind] in Hr. injection Hr as <-.
  destruct body; cbn in Hk; try discriminate Hk; injection Hk as <-; discriminate Hc.
Qed.

(** ** Runs of the handler, path by path *)

Lemma validated_inv (E : Env) (event body : pyval) (p : Params) (i : Inputs) :
  validated E event = Some (body, p, i) ->
  extract_body E event = inr body /\
  get_params E body = Returns (inr p) /\
  resolve_inputs E body = Returns i.
Proof.
  unfold validated. intros H.
  destruct (extract_body E event) as [r|b]; [discriminate|].
  destruct (get_params E b) as [[r|p']|e] eqn:Hp; try discriminate.
  destruct (resolve_inputs E b) as [i'|e] eqn:Hi; try discriminate.
  injection H as <- <- <-. auto.
Qed.

Lemma run_not_validated (E : Env) (event : pyval) :
  validated E event = None ->
  snd (run E event) = started /\
  forall resp, fst (run E event) = Returns resp ->
    statusCode resp = 400%Z /\ lookup "request_id" (body_fields resp) = None.
Proof.
  unfold validated. intros H. run_handler.
  destruct (extract_body E event) as [r|b] eqn:Hx.
  - split; [reflexivity|]. intros resp [= <-]. exact (extract_body_400 E event r Hx).
  - destruct (get_params E b) as [[r|p]|e] eqn:Hp.
    + split; [reflexivity|]. intros resp [= <-]. exact (get_params_400 E b r Hp).
    + destruct (resolve_inputs E b) as [i|e]; [discriminate|].
      split; [reflexivity|]. intros resp [=].
    + split; [reflexivity|]. intros resp [=].
Qed.

Section Paths.

Variable E : Env.
Variables (event body : pyval) (p : Params) (i : Inputs).
Hypothesis Hvalid : validated E event = Some (body, p, i).

Ltac finish :=
  cbv beta iota zeta delta
    [failure_record success_record elapsed_between unsupported_msg model_id_or_unknown];
  repeat match goal with
         | |- context [log_to_dynamodb E ?r] => destruct (log_to_dynamodb E r) as [[]|?]
         end;
  reflexivity.

Ltac enter :=
  destruct (validated_inv E event body p i Hvalid) as (Hx & Hp & Hi);
  run_handler; rewrite Hx; run_handler; rewrite Hp; run_handler;
  rewrite Hi; run_handler.

(** Lines 147-166. *)
Lemma run_unsupported :
  String.eqb (model i) "titan" = false ->
  let rec := failure_record E p i "unknown" (elapsed_between E 1 0)
               (unsupported_msg (model i)) in
  run E event =
  (obind (log_to_dynamodb E rec) (fun _ => Returns (error_400 E (unsupported_msg (model i)))),
   {| ticks := 2; trace := [EvClock 0; EvClock 1; EvLog rec] |}).
Proof.
  intros Hm. enter. rewrite Hm. cbn [negb]. run_handler. finish.
Qed.

(** Lines 169-191. *)
Lemma run_build_failed (e : exn) :
  String.eqb (model i) "titan" = true ->
  prepare_titan_request E (prompt_content p) (painting_mode p)
                          (mask_base64 p) (image_base64 p) = Raises e ->
  let msg := "Error preparing request for " ++ model i ++ ": " ++ exn_str e in
  let rec := failure_record E p i "unknown" (elapsed_between E 1 0) msg in
  run E event =
  (obind (log_to_dynamodb E rec) (fun _ => Returns (error_400 E msg)),
   {| ticks := 2; trace := [EvClock 0; EvClock 1; EvLog rec] |}).
Proof.
  intros Hm Hb. enter. rewrite Hm. cbn [negb]. rewrite Hb. run_handler. finish.
Qed.

Variable request_body : pyval.
Hypothesis Hmodel : String.eqb (model i) "titan" = true.
Hypothesis Hbuilt :
  prepare_titan_request E (prompt_content p) (painting_mode p)
                          (mask_base64 p) (image_base64 p) = Returns request_body.

Ltac enter_call := enter; rewrite Hmodel; cbn [negb]; rewrite Hbuilt; run_handler.

(** Lines 194-204 raise, then 241-268. *)
Lemma run_invoker_failed (e : exn) :
  invoke_model E request_body titan_model_id = Raises e ->
  let rec := failure_record E p i titan_model_id (elapsed_between E 2 0) (exn_str e) in
  run E event =
  (obind (log_to_dynamodb E rec)
         (fun _ => Returns (upstream_failure_response E i (exn_str e))),
   {| ticks := 3;
      trace := [EvClock 0; EvClock 1; EvInvoke request_body titan_model_id; EvClock 2; EvLog rec] |}).
Proof.
  intros Hinv. enter_call. rewrite Hinv. run_handler. finish.
Qed.

(** Lines 210-214 raise, then 241-268. *)
Lemma run_reply_rejected (reply : Reply E) (e : exn) :
  invoke_model E request_body titan_model_id = Returns reply ->
  read_reply E reply = Raises e ->
  let rec := failure_record E p i titan_model_id (elapsed_between E 3 0) (exn_str e) in
  run E event =
  (obind (log_to_dynamodb E rec)
         (fun _ => Returns (upstream_failure_response E i (exn_str e))),
   {| ticks := 4;
      trace := [EvClock 0; EvClock 1; EvInvoke request_body titan_model_id; EvClock 2;
                EvClock 3; EvLog rec] |}).
Proof.
  intros Hinv Hread. enter_call. rewrite Hinv. run_handler.
  rewrite Hread. run_handler. finish.
Qed.

(** Lines 194-239, and 241-268 when the logging call of line 217 raises. *)
Lemma run_generated (reply : Reply E) (images : pyval) (out_size : Z) :
  invoke_model E request_body titan_model_id = Returns reply ->
  read_reply E reply = Returns (images, out_size) ->
  let ok := success_record E p i out_size (elapsed_between E 2 1) in
  run E event =
  match log_to_dynamodb E ok with
  | Returns _ =>
      (Returns (success_response E i images (elapsed_between E 2 1)),
       {| ticks := 3;
          trace := [EvClock 0; EvClock 1; EvInvoke request_body titan_model_id; EvClock 2;
                    EvLog ok] |})
  | Raises e =>
      let failed := failure_record E p i titan_model_id (elapsed_between E 3 0) (exn_str e) in
      (obind (log_to_dynamodb E failed)
             (fun _ => Returns (upstream_failure_response E i (exn_str e))),
       {| ticks := 4;
          trace := [EvClock 0; EvClock 1; EvInvoke request_body titan_model_id; EvClock 2;
                    EvLog ok; EvClock 3; EvLog failed] |})
  end.
Proof.
  intros Hinv Hread. enter_call. rewrite Hinv. run_handler.
  rewrite Hread. run_handler. finish.
Qed.

End Paths.

(** Every way a validated request can run, with the lemma that describes it. *)
Ltac by_path E event body p i Hv :=
  unfold records_of;
  destruct (String.eqb (model i) "titan") eqn:?Hm;
  [ destruct (prepare_titan_request E (prompt_content p) (painting_mode p)
                (mask_base64 p) (image_base64 p)) as [?rb|?e] eqn:?Hb;
    [ match goal with
      | Hb' : prepare_titan_request _ _ _ _ _ = Returns ?rb |- _ =>
          destruct (invoke_model E rb titan_model_id) as [?reply|?e] eqn:?Hc;
          [ match goal with
            | Hc' : invoke_model _ _ _ = Returns ?reply |- _ =>
                destruct (read_reply E reply) as [[?images ?out]|?e] eqn:?Hr;
                [ rewrite (run_generated E event body p i Hv rb Hm Hb' reply images out Hc' Hr)
                | rewrite (run_reply_rejected E event body p i Hv rb Hm Hb' reply _ Hc' Hr) ]
            end
          | rewrite (run_invoker_failed E event body p i Hv rb Hm Hb' _ Hc) ]
      end
    | rewrite (run_build_failed E event body p i Hv _ Hm Hb) ]
  | rewrite (run_unsupported E event body p i Hv Hm) ];
  cbv zeta.

(** ** C1: the audit-log invariant *)

(** C1 (as amended).  Provided the Outcome Logger returns normally: once
    body extraction, parameter extraction, model resolution and input-size
    computation have gone through, the handler returns a response and
    produces exactly one audit record, whichever way it exits (unsupported
    model, build failure, invoker failure, unusable reply, success), and the
    record says success exactly for the 200 response; an invocation that
    stops earlier produces no audit record, and any response it returns
    is a 400. *)
Theorem one_record_once_validated (E : Env) (event : pyval) :
  (forall r, log_to_dynamodb E r = Returns tt) ->
  match validated E event with
  | Some _ =>
      exists resp rec,
        fst (run E event) = Returns resp /\
        records_of E event = [rec] /\
        success rec = (statusCode resp =? 200)%Z
  | None =>
      records_of E event = [] /\
      forall resp, fst (run E event) = Returns resp -> statusCode resp = 400%Z
  end.
Proof.
  intros Hlog.
  destruct (validated E event) as [[[body p] i]|] eqn:Hv.
  - by_path E event body p i Hv; rewrite ?Hlog; cbn [obind fst snd trace audit_records];
      do 2 eexists; repeat split.
  - destruct (run_not_validated E event Hv) as [Hw Hresp].
    unfold records_of. rewrite Hw. split; [reflexivity|].
    intros resp Hr. now apply Hresp.
Qed.

(** C1, a run: the sample request goes through and leaves one record. *)
Lemma one_record_once_validated_witness :
  exists resp rec,
    fst (run Mock.ok_env (Mock.event_of Mock.valid_body)) = Returns resp /\
    records_of Mock.ok_env (Mock.event_of Mock.valid_body) = [rec] /\
    success rec = (statusCode resp =? 200)%Z.
Proof.
  exact (one_record_once_validated Mock.ok_env (Mock.event_of Mock.valid_body)
           (fun _ => eq_refl)).
Defined.

(** C1, as stated, fails: a body that is not JSON is answered with a 400 and
    no audit record at all. *)
Lemma malformed_body_leaves_no_record :
  fst (run Mock.ok_env (Mock.event_of (PStr "{not json"))) =
    Returns (error_400 Mock.ok_env
      "Invalid JSON in request body: Expecting value: line 1 column 1 (char 0)") /\
  records_of Mock.ok_env (Mock.event_of (PStr "{not json")) = [] /\
  length (records_of Mock.ok_env (Mock.event_of (PStr "{not json"))) <> 1%nat.
Proof. repeat split. discriminate. Qed.

(** ** C2: bodies with a missing field *)

Lemma get_params_inr (E : Env) (body : pyval) (p : Params) :
  get_params E body = Returns (inr p) -> read_params E body = Returns (inr p).
Proof.
  unfold get_params.
  destruct (read_params E body) as [r|e]; [trivial|].
  destruct (exn_cls e); try discriminate.
  destruct (py_keys E body); discriminate.
Qed.

Lemma has_key_lookup (k : string) (d : list (string * pyval)) :
  has_key k d = true -> lookup k d <> None.
Proof. unfold has_key. destruct (lookup k d); [discriminate | discriminate]. Qed.

Lemma read_params_needs_all (E : Env) (d : list (string * pyval)) (p : Params) :
  read_params E (PDict d) = Returns (inr p) ->
  lookup "prompt" d <> None /\ lookup "mask" d <> None /\ lookup "base_image" d <> None.
Proof.
  unfold read_params. intros H.
  repeat split_outcome.
  cbn [py_in] in *.
  repeat match goal with
         | Hk : Returns (has_key _ _) = Returns true |- _ => injection Hk as Hk
         end.
  auto using has_key_lookup.
Qed.

Lemma read_params_no_prompt (E : Env) (d : list (string * pyval)) :
  lookup "prompt" d = None ->
  read_params E (PDict d) =
  Returns (inl (respond E 400 [("error", PStr (missing_field "prompt"));
                               ("received_keys", key_list d)])).
Proof.
  intros H. unfold read_params, has_key. cbn [py_keys py_in obind]. unfold has_key.
  now rewrite H.
Qed.

Lemma read_params_no_mask (E : Env) (d : list (string * pyval)) (pr t m : pyval) :
  lookup "prompt" d = Some pr ->
  py_getitem E pr "text" = Returns t ->
  py_getitem E pr "mode" = Returns m ->
  lookup "mask" d = None ->
  read_params E (PDict d) = Returns (inl (error_400 E (missing_field "mask"))).
Proof.
  intros Hp Ht Hm Hk. unfold read_params. cbn [py_keys py_in py_getitem obind].
  unfold has_key. rewrite Hp. cbn [negb obind]. rewrite Ht, Hm. cbn [obind].
  now rewrite Hk.
Qed.

Lemma read_params_no_image (E : Env) (d : list (string * pyval)) (pr t m mk mk' : pyval) :
  lookup "prompt" d = Some pr ->
  py_getitem E pr "text" = Returns t ->
  py_getitem E pr "mode" = Returns m ->
  lookup "mask" d = Some mk ->
  strip_data_uri E mk = Returns mk' ->
  lookup "base_image" d = None ->
  read_params E (PDict d) = Returns (inl (error_400 E (missing_field "base_image"))).
Proof.
  intros Hp Ht Hm Hk Hs Hi. unfold read_params. cbn [py_keys py_in py_getitem obind].
  unfold has_key. rewrite Hp. cbn [negb obind]. rewrite Ht, Hm. cbn [obind].
  rewrite Hk. cbn [negb obind]. rewrite Hs. cbn [obind]. now rewrite Hi.
Qed.

Lemma get_params_of_read (E : Env) (body : pyval) (r : Response + Params) :
  read_params E body = Returns r -> get_params E body = Returns r.
Proof. unfold get_params. now intros ->. Qed.

Lemma run_rejected_params (E : Env) (event body : pyval) (resp : Response) :
  extract_body E event = inr body ->
  get_params E body = Returns (inl resp) ->
  run E event = (Returns resp, started).
Proof. intros Hx Hp. run_handler. rewrite Hx. run_handler. now rewrite Hp. Qed.

(** C2 (as amended).  For every event whose body is an object missing
    [prompt], [mask] or [base_image], the handler returns a 400 response and
    produces no audit record.  The error message names the missing field
    provided the checks made before it pass: [prompt] in every case; [mask]
    when [prompt] holds [text] and [mode]; [base_image] when moreover [mask]
    is present and its prefix stripping goes through. *)
Theorem missing_field_rejected (E : Env) (event : pyval) (d : list (string * pyval)) :
  extract_body E event = inr (PDict d) ->
  lookup "prompt" d = None \/ lookup "mask" d = None \/ lookup "base_image" d = None ->
  exists resp,
    run E event = (Returns resp, started) /\
    statusCode resp = 400%Z /\
    records_of E event = [] /\
    (lookup "prompt" d = None ->
     body resp = json_dumps (PDict [("error", PStr (missing_field "prompt"));
                                    ("received_keys", key_list d)])) /\
    (forall pr t m,
        lookup "prompt" d = Some pr ->
        py_getitem E pr "text" = Returns t ->
        py_getitem E pr "mode" = Returns m ->
        (lookup "mask" d = None ->
         body resp = json_dumps (PDict [("error", PStr (missing_field "mask"))])) /\
        (forall mk mk',
            lookup "mask" d = Some mk ->
            strip_data_uri E mk = Returns mk' ->
            lookup "base_image" d = None ->
            body resp = json_dumps (PDict [("error", PStr (missing_field "base_image"))]))).
Proof.
  intros Hx Hmiss.
  destruct (get_params_returns E (PDict d)) as [[resp|p] Hg].
  - exists resp.
    pose proof (run_rejected_params E event (PDict d) resp Hx Hg) as Hrun.
    split; [exact Hrun|].
    split; [exact (proj1 (get_params_400 E (PDict d) resp Hg))|].
    split; [unfold records_of; now rewrite Hrun|].
    split.
    + intros Hp. rewrite (get_params_of_read E _ _ (read_params_no_prompt E d Hp)) in Hg.
      now injection Hg as <-.
    + intros pr t m Hp Ht Hm. split.
      * intros Hk.
        rewrite (get_params_of_read E _ _ (read_params_no_mask E d pr t m Hp Ht Hm Hk)) in Hg.
        now injection Hg as <-.
      * intros mk mk' Hk Hs Hi.
        rewrite (get_params_of_read E _ _
                   (read_params_no_image E d pr t m mk mk' Hp Ht Hm Hk Hs Hi)) in Hg.
        now injection Hg as <-.
  - apply get_params_inr, read_params_needs_all in Hg.
    destruct Hg as (H1 & H2 & H3). destruct Hmiss as [H|[H|H]]; contradiction.
Qed.

(** C2, a run: the sample body without its mask. *)
Lemma missing_field_rejected_witness :
  exists resp,
    run Mock.ok_env (Mock.event_of Mock.body_without_mask) = (Returns resp, started) /\
    statusCode resp = 400%Z /\
    records_of Mock.ok_env (Mock.event_of Mock.body_without_mask) = [] /\
    body resp = json_dumps (PDict [("error", PStr (missing_field "mask"))]).
Proof.
  destruct (missing_field_rejected Mock.ok_env (Mock.event_of Mock.body_without_mask) _
              eq_refl (or_intror (or_introl eq_refl)))
    as (resp & Hrun & Hcode & Hrec & _ & Hmsg).
  exists resp. repeat split; try assumption.
  exact (proj1 (Hmsg Mock.cat_prompt (PStr "a cat") (PStr "INPAINTING")
                     eq_refl eq_refl eq_refl) eq_refl).
Defined.

(** C2, as stated, fails: the attempt leaves no audit record (not one), and
    a malformed [prompt] is reported before the missing [mask] is. *)
Lemma missing_mask_leaves_no_record :
  (fst (run Mock.ok_env (Mock.event_of Mock.body_without_mask)) =
     Returns (error_400 Mock.ok_env (missing_field "mask")) /\
   records_of Mock.ok_env (Mock.event_of Mock.body_without_mask) = [] /\
   length (records_of Mock.ok_env (Mock.event_of Mock.body_without_mask)) <> 1%nat) /\
  (fst (run Mock.ok_env (Mock.event_of Mock.body_with_empty_prompt)) =
     Returns (respond Mock.ok_env 400
                [("error", PStr "Missing required field: 'text'");
                 ("body_structure", PStr "dict_keys(['prompt', 'base_image'])")]) /\
   records_of Mock.ok_env (Mock.event_of Mock.body_with_empty_prompt) = []).
Proof. repeat split. discriminate. Qed.

(** ** C3: errors that reach the caller *)

(** C3, where it fails.  For a request that passes body and parameter
    extraction and whose [model] field holds anything but a string,
    [body.get('model', 'titan').lower()] on line 139 raises an
    [AttributeError]; the line stands outside every [try], so the error
    leaves the handler: no response is returned and nothing is logged. *)
Theorem non_string_model_escapes (E : Env) (event body : pyval) (p : Params)
    (requested : pyval) :
  extract_body E event = inr body ->
  get_params E body = Returns (inr p) ->
  py_get E body "model" (PStr "titan") = Returns requested ->
  type_of requested <> TStr ->
  run E event =
    (Raises (Exn AttributeError (fault_msg E (NoAttribute (type_of requested) "lower"))),
     started) /\
  records_of E event = [].
Proof.
  intros Hx Hp Hg Hty.
  assert (Hres : resolve_inputs E body =
                 Raises (Exn AttributeError
                           (fault_msg E (NoAttribute (type_of requested) "lower")))).
  { unfold resolve_inputs. rewrite Hg. cbn [obind].
    destruct requested; try reflexivity. now contradiction Hty. }
  assert (Hrun : run E event =
                 (Raises (Exn AttributeError
                            (fault_msg E (NoAttribute (type_of requested) "lower"))),
                  started)).
  { run_handler. rewrite Hx. run_handler. rewrite Hp. run_handler. now rewrite Hres. }
  split; [exact Hrun|]. unfold records_of. now rewrite Hrun.
Qed.

(** C3, a run: the sample body with the number 5 as its model. *)
Lemma non_string_model_escapes_witness :
  run Mock.ok_env (Mock.event_of (Mock.body_with_model (PInt 5))) =
    (Raises (Exn AttributeError "'int' object has no attribute 'lower'"), started) /\
  records_of Mock.ok_env (Mock.event_of (Mock.body_with_model (PInt 5))) = [].
Proof.
  refine (non_string_model_escapes Mock.ok_env
            (Mock.event_of (Mock.body_with_model (PInt 5))) _ _ (PInt 5)
            eq_refl eq_refl eq_refl _).
  discriminate.
Defined.

(** ** C6: unsupported models *)





(** ** C7: where the generation time is measured from *)

(** C7 (as amended).  For a request that reaches the invoker: the clock is
    read a second time immediately before the call and a third time right
    after it.  On success the generation time of the audit record is the time
    between the third and the second reading, so validation overhead is left
    out, and when the logging call returns the 200 response reports the same
    value.  When the invoker raises, the audit record's generation time is
    the time between the third reading and the first one, taken at the start
    of the request, and when the logging call returns the 500 response has no
    [generation_time_ms] field. *)
Theorem generation_time_base (E : Env) (event body : pyval) (p : Params) (i : Inputs)
    (request_body : pyval) :
  validated E event = Some (body, p, i) ->
  String.eqb (model i) "titan" = true ->
  prepare_titan_request E (prompt_content p) (painting_mode p)
                          (mask_base64 p) (image_base64 p) = Returns request_body ->
  (forall reply images out_size,
      invoke_model E request_body titan_model_id = Returns reply ->
      read_reply E reply = Returns (images, out_size) ->
      let ok := success_record E p i out_size (elapsed_between E 2 1) in
      (exists rest,
          trace (snd (run E event)) =
            ([EvClock 0; EvClock 1; EvInvoke request_body titan_model_id;
              EvClock 2; EvLog ok] ++ rest)%list) /\
      generation_time_ms ok = elapsed_ms E (clock E 2) (clock E 1) /\
      (log_to_dynamodb E ok = Returns tt ->
       run E event =
       (Returns (success_response E i images (elapsed_between E 2 1)),
        {| ticks := 3;
           trace := [EvClock 0; EvClock 1; EvInvoke request_body titan_model_id;
                     EvClock 2; EvLog ok] |}) /\
       lookup "generation_time_ms"
              (body_fields (success_response E i images (elapsed_between E 2 1)))
         = Some (PInt (elapsed_ms E (clock E 2) (clock E 1))))) /\
  (forall e,
      invoke_model E request_body titan_model_id = Raises e ->
      let failed := failure_record E p i titan_model_id (elapsed_between E 2 0) (exn_str e) in
      trace (snd (run E event)) =
        [EvClock 0; EvClock 1; EvInvoke request_body titan_model_id; EvClock 2; EvLog failed] /\
      generation_time_ms failed = elapsed_ms E (clock E 2) (clock E 0) /\
      (log_to_dynamodb E failed = Returns tt ->
       fst (run E event) = Returns (upstream_failure_response E i (exn_str e)) /\
       statusCode (upstream_failure_response E i (exn_str e)) = 500%Z /\
       lookup "generation_time_ms"
              (body_fields (upstream_failure_response E i (exn_str e))) = None)).
Proof.
  intros Hv Hm Hb. split.
  - intros reply images out_size Hc Hr ok.
    rewrite (run_generated E event body p i Hv request_body Hm Hb reply images out_size Hc Hr).
    cbv zeta. fold ok. split; [|split; [reflexivity|]].
    + destruct (log_to_dynamodb E ok) as [[]|e'].
      * exists []. reflexivity.
      * destruct (log_to_dynamodb E _); eexists; reflexivity.
    + intros Hl. rewrite Hl. split; reflexivity.
  - intros e Hc failed.
    rewrite (run_invoker_failed E event body p i Hv request_body Hm Hb e Hc).
    cbv zeta. fold failed. split; [reflexivity|]. split; [reflexivity|].
    intros Hl. rewrite Hl. repeat split.
Qed.

(** C7, two runs: the mocked clock reads 0, 100 and 400 ms; the successful
    run reports 300 ms, the run whose invoker raises logs 400 ms and answers
    with a 500 that carries no generation time. *)
Lemma generation_time_base_witness :
  (exists w, run Mock.ok_env (Mock.event_of Mock.valid_body) =
             (Returns (success_response Mock.ok_env
                         {| model := "titan"; canvas_config := PDict [];
                            input_image_size := 6; input_mask_size := 19 |}
                         (PList [PStr "QUJD"]) 300), w)) /\
  map generation_time_ms
      (audit_records (trace (snd (run Mock.failing_env (Mock.event_of Mock.valid_body)))))
    = [400%Z] /\
  (exists resp,
      fst (run Mock.failing_env (Mock.event_of Mock.valid_body)) = Returns resp /\
      statusCode resp = 500%Z /\
      lookup "generation_time_ms" (body_fields resp) = None).
Proof.
  destruct (generation_time_base Mock.ok_env (Mock.event_of Mock.valid_body)
              _ _ _ _ eq_refl eq_refl eq_refl) as [Hok _].
  destruct (generation_time_base Mock.failing_env (Mock.event_of Mock.valid_body)
              _ _ _ _ eq_refl eq_refl eq_refl) as [_ Hfail].
  destruct (Hok Mock.reply_text (PList [PStr "QUJD"]) 3%Z eq_refl eq_refl)
    as (_ & _ & Hresp).
  destruct (Hfail Mock.transport_error eq_refl) as (Htrace & _ & Hresp').
  split; [eexists; exact (proj1 (Hresp eq_refl))|].
  split; [rewrite Htrace; reflexivity|].
  eexists. exact (Hresp' eq_refl).
Defined.

(** C7, as stated, fails on the invoker-failure outcome: the reading taken
    immediately before the call is 100 ms, the failure is seen at 400 ms, and
    the logged generation time is 400 ms, not the 300 ms since that reading. *)
Lemma failure_time_counts_from_start :
  trace (snd (run Mock.failing_env (Mock.event_of Mock.valid_body))) =
    [EvClock 0; EvClock 1;
     EvInvoke (PDict [("taskType", PStr "INPAINTING"); ("text", PStr "a cat");
                      ("maskImage", PStr "AAAA"); ("image", PStr "QUJDREVG")])
              titan_model_id;
     EvClock 2;
     EvLog (failure_record Mock.failing_env
              {| prompt_content := PStr "a cat"; painting_mode := PStr "INPAINTING";
                 mask_base64 := PStr "AAAA"; image_base64 := PStr "QUJDREVG" |}
              {| model := "titan"; canvas_config := PDict [];
                 input_image_size := 6; input_mask_size := 19 |}
              titan_model_id 400 "Read timeout on endpoint URL")] /\
  elapsed_between Mock.failing_env 2 1 = 300%Z /\
  elapsed_between Mock.failing_env 2 0 = 400%Z /\
  map generation_time_ms
      (audit_records (trace (snd (run Mock.failing_env (Mock.event_of Mock.valid_body)))))
    <> [elapsed_between Mock.failing_env 2 1].
Proof. repeat split. discriminate. Qed.

(** ** C8: a failing logging call *)




(** ** C9: the invoker raises *)




(** ** C10: which responses carry the request identifier *)

Lemma validated_with_uuid (u : string) (E : Env) (event : pyval) :
  validated (with_uuid u E) event = validated E event.
Proof. reflexivity. Qed.

(** A 400 response does not depend on the identifier that was drawn. *)
Lemma rejection_ignores_uuid (E : Env) (u : string) (event : pyval) (resp resp' : Response) :
  fst (run E event) = Returns resp ->
  statusCode resp = 400%Z ->
  fst (run (with_uuid u E) event) = Returns resp' ->
  resp' = resp.
Proof.
  destruct (validated E event) as [[[body p] i]|] eqn:Hv.
  - pose proof (validated_with_uuid u E event) as Hv'. rewrite Hv in Hv'.
    destruct (String.eqb (model i) "titan") eqn:Hm.
    + destruct (prepare_titan_request E (prompt_content p) (painting_mode p)
                  (mask_base64 p) (image_base64 p)) as [rb|e] eqn:Hb.
      * destruct (invoke_model E rb titan_model_id) as [reply|e] eqn:Hc.
        -- destruct (read_reply E reply) as [[images out]|e] eqn:Hr.
           ++ rewrite (run_generated E event body p i Hv rb Hm Hb reply images out Hc Hr).
              cbv zeta.
              repeat match goal with
                     | |- context [log_to_dynamodb E ?r] =>
                         destruct (log_to_dynamodb E r) as [[]|?]
                     end;
                cbn [obind fst]; intros [= <-]; discriminate.
           ++ rewrite (run_reply_rejected E event body p i Hv rb Hm Hb reply e Hc Hr).
              cbv zeta.
              destruct (log_to_dynamodb E _) as [[]|?];
                cbn [obind fst]; intros [= <-]; discriminate.
        -- rewrite (run_invoker_failed E event body p i Hv rb Hm Hb e Hc). cbv zeta.
           destruct (log_to_dynamodb E _) as [[]|?];
             cbn [obind fst]; intros [= <-]; discriminate.
      * rewrite (run_build_failed E event body p i Hv e Hm Hb),
                (run_build_failed (with_uuid u E) event body p i Hv' e Hm Hb).
        cbv zeta.
        destruct (log_to_dynamodb E _) as [[]|?]; cbn [obind fst]; intros [= <-] _;
          destruct (log_to_dynamodb (with_uuid u E) _) as [[]|?];
          cbn [obind fst]; intros [= <-]; reflexivity.
    + rewrite (run_unsupported E event body p i Hv Hm),
              (run_unsupported (with_uuid u E) event body p i Hv' Hm).
      cbv zeta.
      destruct (log_to_dynamodb E _) as [[]|?]; cbn [obind fst]; intros [= <-] _;
        destruct (log_to_dynamodb (with_uuid u E) _) as [[]|?];
        cbn [obind fst]; intros [= <-]; reflexivity.
  - intros Hr _. revert Hr. unfold validated in Hv. run_handler.
    change (extract_body (with_uuid u E) event) with (extract_body E event).
    destruct (extract_body E event) as [r|b].
    + intros [= <-] [= <-]. reflexivity.
    + change (get_params (with_uuid u E) b) with (get_params E b).
      change (resolve_inputs (with_uuid u E) b) with (resolve_inputs E b).
      destruct (get_params E b) as [[r|p]|e].
      * intros [= <-] [= <-]. reflexivity.
      * destruct (resolve_inputs E b) as [i|e]; [discriminate Hv|]. intros [=].
      * intros [=].
Qed.

(** C10.  Whenever the handler returns a response, its status is 200, 400 or
    500; the body of a 200 and of a 500 response has the field [request_id]
    holding the identifier generated for the attempt; the body of a 400
    response has no such field, and the whole 400 response is the same
    whatever identifier was generated. *)
Theorem request_id_only_on_200_and_500 (E : Env) (event : pyval) (resp : Response) :
  fst (run E event) = Returns resp ->
  (statusCode resp = 200%Z \/ statusCode resp = 500%Z) /\
    lookup "request_id" (body_fields resp) = Some (PStr (uuid4 E))
  \/
  statusCode resp = 400%Z /\
    lookup "request_id" (body_fields resp) = None /\
    (forall u resp', fst (run (with_uuid u E) event) = Returns resp' -> resp' = resp).
Proof.
  intros Hrun.
  assert (Hshape :
    (statusCode resp = 200%Z \/ statusCode resp = 500%Z) /\
      lookup "request_id" (body_fields resp) = Some (PStr (uuid4 E))
    \/ statusCode resp = 400%Z /\ lookup "request_id" (body_fields resp) = None).
  { revert resp Hrun.
    destruct (validated E event) as [[[body p] i]|] eqn:Hv.
    - by_path E event body p i Hv; intros resp;
        repeat match goal with
               | |- context [log_to_dynamodb E ?r] => destruct (log_to_dynamodb E r) as [[]|?]
               end;
        cbn [obind fst]; intros [= <-]; auto.
    - intros resp Hr. right. exact (proj2 (run_not_validated E event Hv) resp Hr). }
  destruct Hshape as [H|[Hcode Hnone]]; [left; exact H|].
  right. repeat split; try assumption.
  intros u resp' Hrun'. exact (rejection_ignores_uuid E u event resp resp' Hrun Hcode Hrun').
Qed.

(** C10, three runs: a success, an upstream failure and a validation error. *)
Lemma request_id_only_on_200_and_500_witness :
  (exists r, fst (run Mock.ok_env (Mock.event_of Mock.valid_body)) = Returns r /\
             statusCode r = 200%Z /\
             lookup "request_id" (body_fields r) = Some (PStr (uuid4 Mock.ok_env))) /\
  (exists r, fst (run Mock.failing_env (Mock.event_of Mock.valid_body)) = Returns r /\
             statusCode r = 500%Z /\
             lookup "request_id" (body_fields r) = Some (PStr (uuid4 Mock.failing_env))) /\
  (exists r, fst (run Mock.ok_env (Mock.event_of Mock.body_without_mask)) = Returns r /\
             statusCode r = 400%Z /\
             lookup "request_id" (body_fields r) = None).
Proof.
  pose proof (request_id_only_on_200_and_500 Mock.ok_env
                (Mock.event_of Mock.valid_body) _ eq_refl) as H1.
  pose proof (request_id_only_on_200_and_500 Mock.failing_env
                (Mock.event_of Mock.valid_body) _ eq_refl) as H2.
  pose proof (request_id_only_on_200_and_500 Mock.ok_env
                (Mock.event_of Mock.body_without_mask) _ eq_refl) as H3.
  split; [|split]; eexists; (split; [reflexivity|]).
  - destruct H1 as [[_ H]|[H _]]; [split; [reflexivity|exact H] | discriminate H].
  - destruct H2 as [[_ H]|[H _]]; [split; [reflexivity|exact H] | discriminate H].
  - destruct H3 as [[[H|H] _]|[_ [H _]]];
      [discriminate H | discriminate H | split; [reflexivity|exact H]].
Defined.

(** ** What a raising logger would do to a successful generation *)

(** Line 217 stands inside the last [try]: were [log_to_dynamodb] to raise
    there, the [except] clause of line 241 would log a second, failed record
    and, that call returning, answer 500 in place of the 200. *)
Lemma raising_logger_overrides_success (E : Env) (event body : pyval) (p : Params)
    (i : Inputs) (request_body : pyval) (reply : Reply E) (images : pyval) (out_size : Z)
    (e : exn) :
  validated E event = Some (body, p, i) ->
  String.eqb (model i) "titan" = true ->
  prepare_titan_request E (prompt_content p) (painting_mode p)
                          (mask_base64 p) (image_base64 p) = Returns request_body ->
  invoke_model E request_body titan_model_id = Returns reply ->
  read_reply E reply = Returns (images, out_size) ->
  log_to_dynamodb E (success_record E p i out_size (elapsed_between E 2 1)) = Raises e ->
  log_to_dynamodb E (failure_record E p i titan_model_id (elapsed_between E 3 0) (exn_str e))
    = Returns tt ->
  fst (run E event) = Returns (upstream_failure_response E i (exn_str e)) /\
  records_of E event =
    [success_record E p i out_size (elapsed_between E 2 1);
     failure_record E p i titan_model_id (elapsed_between E 3 0) (exn_str e)].
Proof.
  intros Hv Hm Hb Hc Hr Hl1 Hl2.
  unfold records_of.
  rewrite (run_generated E event body p i Hv request_body Hm Hb reply images out_size Hc Hr).
  cbv zeta. rewrite Hl1, Hl2. split; reflexivity.
Qed.

Lemma raising_logger_overrides_success_witness :
  fst (run (Mock.env (fun r => if success r then Mock.down_sink r else Returns tt)
                     (Returns Mock.reply_text))
           (Mock.event_of Mock.valid_body)) =
  Returns (upstream_failure_response Mock.ok_env
             {| model := "titan"; canvas_config := PDict [];
                input_image_size := 6; input_mask_size := 19 |}
             "Could not connect to the endpoint URL").
Proof.
  exact (proj1 (raising_logger_overrides_success
                  (Mock.env (fun r => if success r then Mock.down_sink r else Returns tt)
                            (Returns Mock.reply_text))
                  (Mock.event_of Mock.valid_body) _ _ _ _ Mock.reply_text
                  (PList [PStr "QUJD"]) 3%Z _
                  eq_refl eq_refl eq_refl eq_refl eq_refl eq_refl eq_refl)).
Defined.

(** * Further properties of the handler *)

(** ** Which errors the extraction stages can meet *)

Lemma py_in_raises (E : Env) (k : string) (v : pyval) (e : exn) :
  py_in E k v = Raises e -> exn_cls e = TypeError.
Proof. destruct v; cbn; intros [= <-]; reflexivity. Qed.

Lemma py_getitem_raises (E : Env) (v : pyval) (k : string) (e : exn) :
  py_getitem E v k = Raises e -> exn_cls e = KeyError \/ exn_cls e = TypeError.
Proof.
  destruct v; cbn; try (intros [= <-]; auto).
  destruct (lookup k fields); intros [= <-]; auto.
Qed.

Lemma py_keys_raises (E : Env) (v : pyval) (e : exn) :
  py_keys E v = Raises e -> exn_cls e = AttributeError.
Proof. destruct v; cbn; intros [= <-]; reflexivity. Qed.

Lemma strip_data_uri_raises (E : Env) (v : pyval) (e : exn) :
  strip_data_uri E v = Raises e ->
  exn_cls e = TypeError \/ exn_cls e = AttributeError.
Proof.
  destruct v; cbn [strip_data_uri py_in obind type_of]; try (intros [= <-]; auto).
  - rewrite strip_str_closed_form. cbn [obind]. discriminate.
  - destruct (existsb (is_str ",") items); intros [= <-]; auto.
  - destruct (has_key "," fields); intros [= <-]; auto.
Qed.

Lemma read_params_raises (E : Env) (body : pyval) (e : exn) :
  read_params E body = Raises e ->
  exn_cls e = KeyError \/ exn_cls e = TypeError \/ exn_cls e = AttributeError.
Proof.
  unfold read_params. intros H.
  repeat split_outcome;
    try discriminate H;
    injection H as <-;
    repeat match goal with
           | Ho : py_in _ _ _ = Raises _ |- _ => apply py_in_raises in Ho
           | Ho : py_keys _ _ = Raises _ |- _ => apply py_keys_raises in Ho
           | Ho : py_getitem _ _ _ = Raises _ |- _ => apply py_getitem_raises in Ho
           | Ho : strip_data_uri _ _ = Raises _ |- _ => apply strip_data_uri_raises in Ho
           end;
    intuition auto.
Qed.

(** X2.  Parameter extraction (lines 84-136) always comes back with a
    response or the parameters, whatever JSON value the body is; its [try]
    body only ever meets a [KeyError], a [TypeError] or an [AttributeError],
    so the [except IndexError] clause of lines 123-129 is never taken and the
    answer [Malformed base64 image data] is never given. *)
Theorem params_extraction_total (E : Env) (body : pyval) :
  (exists r, get_params E body = Returns r) /\
  (forall e, read_params E body = Raises e -> exn_cls e <> IndexError) /\
  get_params E body <> Returns (inl (error_400 E "Malformed base64 image data")).
Proof.
  split; [apply get_params_returns|]. split.
  - intros e H. apply read_params_raises in H.
    destruct H as [H|[H|H]]; rewrite H; discriminate.
  - unfold get_params.
    destruct (read_params E body) as [r|e] eqn:Hr.
    + unfold read_params in Hr. intros H. injection H as ->.
      repeat split_outcome; discriminate Hr.
    + pose proof (read_params_raises E body e Hr) as Hc.
      destruct (exn_cls e); try (destruct Hc as [Hc|[Hc|Hc]]; discriminate Hc).
      * destruct (py_keys E body); cbn [obind]; discriminate.
      * discriminate.
      * discriminate.
Qed.

(** ** Exceptions that leave the handler *)

Lemma run_resolve_raises (E : Env) (event body : pyval) (p : Params) (e : exn) :
  extract_body E event = inr body ->
  get_params E body = Returns (inr p) ->
  resolve_inputs E body = Raises e ->
  run E event = (Raises e, started).
Proof.
  intros Hx Hp Hr. run_handler. rewrite Hx. run_handler. rewrite Hp. run_handler.
  now rewrite Hr.
Qed.

(** X3.  An exception leaves the handler only from the lines that stand
    outside its [try] blocks: either model resolution and size computation
    (lines 139-144) raised it, or a [log_to_dynamodb] call made for this
    request did.  Body parsing, parameter extraction, request building, the
    remote call and the reading of its reply never let one through. *)
Theorem escapes_only_from_resolution_or_logger (E : Env) (event : pyval) (e : exn) :
  fst (run E event) = Raises e ->
  exists body p,
    extract_body E event = inr body /\
    get_params E body = Returns (inr p) /\
    (resolve_inputs E body = Raises e \/
     exists r, In r (records_of E event) /\ log_to_dynamodb E r = Raises e).
Proof.
  destruct (validated E event) as [[[body p] i]|] eqn:Hv.
  - destruct (validated_inv E event body p i Hv) as (Hx & Hp & Hi).
    intros H. exists body, p. split; [exact Hx|]. split; [exact Hp|]. right.
    revert H. by_path E event body p i Hv;
      repeat match goal with
             | |- context [log_to_dynamodb E ?r] =>
                 let Hl := fresh "Hl" in destruct (log_to_dynamodb E r) as [[]|?] eqn:Hl
             end;
      cbn [obind fst snd trace audit_records]; intros [= <-];
      eexists; (split; [|eassumption]); cbn; auto.
  - unfold validated in Hv.
    destruct (extract_body E event) as [r|body] eqn:Hx.
    + run_handler. rewrite Hx. discriminate.
    + destruct (get_params E body) as [[r|p]|e'] eqn:Hp.
      * rewrite (run_rejected_params E event body r Hx Hp). discriminate.
      * destruct (resolve_inputs E body) as [i|e'] eqn:Hr; [discriminate Hv|].
        rewrite (run_resolve_raises E event body p e' Hx Hp Hr).
        intros [= <-]. exists body, p. auto.
      * destruct (get_params_returns E body) as [r Hr]. congruence.
Qed.

(** X3, a run: the number 5 as the model makes line 139 raise. *)
Lemma escapes_only_from_resolution_or_logger_witness :
  exists body p,
    extract_body Mock.ok_env (Mock.event_of (Mock.body_with_model (PInt 5))) = inr body /\
    get_params Mock.ok_env body = Returns (inr p) /\
    (resolve_inputs Mock.ok_env body =
       Raises (Exn AttributeError "'int' object has no attribute 'lower'") \/
     exists r,
       In r (records_of Mock.ok_env (Mock.event_of (Mock.body_with_model (PInt 5)))) /\
       log_to_dynamodb Mock.ok_env r =
         Raises (Exn AttributeError "'int' object has no attribute 'lower'")).
Proof.
  exact (escapes_only_from_resolution_or_logger Mock.ok_env
           (Mock.event_of (Mock.body_with_model (PInt 5))) _ eq_refl).
Defined.

(** X2, a run: a prompt without [text] makes the [try] body raise a
    [KeyError], which the extraction turns into a response. *)
Lemma params_extraction_total_witness :
  (exists r, get_params Mock.ok_env Mock.body_with_empty_prompt = Returns r) /\
  read_params Mock.ok_env Mock.body_with_empty_prompt = Raises (Exn KeyError "'text'") /\
  exn_cls (Exn KeyError "'text'") <> IndexError.
Proof.
  destruct (params_extraction_total Mock.ok_env Mock.body_with_empty_prompt)
    as (Htotal & Hclass & _).
  split; [exact Htotal|]. split; [reflexivity|].
  exact (Hclass (Exn KeyError "'text'") eq_refl).
Defined.

(** ** Events without a usable body *)

(** The handler reads its event through [extract_body] alone. *)
Lemma run_depends_on_body (E : Env) (event event' : pyval) :
  extract_body E event = extract_body E event' -> run E event = run E event'.
Proof. intros H. run_handler. now rewrite H. Qed.

Lemma run_rejected_body (E : Env) (event : pyval) (resp : Response) :
  extract_body E event = inl resp -> run E event = (Returns resp, started).
Proof. intros H. run_handler. now rewrite H. Qed.

(** X4.  Whatever JSON value the event is, if it is not an object whose
    [body] is an object or a string, the handler answers 400 right after
    reading the start time: nothing is logged and the service is not called.
    An object without [body] is told so, with the keys it does have. *)
Theorem unusable_event_rejected (E : Env) (event : pyval) :
  has_usable_body event = false ->
  (exists msg extra,
      run E event = (Returns (respond E 400 (("error", PStr msg) :: extra)), started)) /\
  records_of E event = [] /\
  invoke_count (trace (snd (run E event))) = 0 /\
  (forall d, event = PDict d -> lookup "body" d = None ->
     fst (run E event) =
     Returns (respond E 400 [("error", PStr "Missing body in request");
                             ("event_keys", key_list d)])).
Proof.
  intros Hu.
  assert (Hx : exists msg extra,
             extract_body E event = inl (respond E 400 (("error", PStr msg) :: extra))).
  { unfold extract_body, parse_body.
    destruct event; cbn [py_in py_keys py_getitem obind type_of exn_cls];
      try (do 2 eexists; reflexivity).
    - destruct (PyStr.contains "body" s); cbn; do 2 eexists; reflexivity.
    - destruct (existsb (is_str "body") items); cbn; do 2 eexists; reflexivity.
    - cbn in Hu. unfold has_key.
      destruct (lookup "body" fields) as [b|]; cbn [negb obind].
      + destruct b; try discriminate Hu; do 2 eexists; reflexivity.
      + do 2 eexists; reflexivity. }
  destruct Hx as (msg & extra & Hx).
  pose proof (run_rejected_body E event _ Hx) as Hrun.
  split; [eauto|]. unfold records_of. rewrite Hrun.
  split; [reflexivity|]. split; [reflexivity|].
  intros d -> Hnone. cbn [fst].
  unfold extract_body, parse_body in Hx. cbn [py_in obind] in Hx.
  unfold has_key in Hx. rewrite Hnone in Hx. cbn in Hx.
  injection Hx as <- <-. reflexivity.
Qed.

(** X4, three runs: an event that is a list, one without [body], and one
    whose [body] is a number. *)
Lemma unusable_event_rejected_witness :
  fst (run Mock.ok_env (PList [PStr "body"])) =
    Returns (error_400 Mock.ok_env
               "Error parsing request body: list indices must be integers") /\
  fst (run Mock.ok_env (PDict [("httpMethod", PStr "POST")])) =
    Returns (respond Mock.ok_env 400
               [("error", PStr "Missing body in request");
                ("event_keys", PList [PStr "httpMethod"])]) /\
  fst (run Mock.ok_env (Mock.event_of (PInt 7))) =
    Returns (error_400 Mock.ok_env "Invalid body type: <class 'int'>") /\
  records_of Mock.ok_env (Mock.event_of (PInt 7)) = [].
Proof.
  split; [reflexivity|]. split.
  - exact (proj2 (proj2 (proj2 (unusable_event_rejected Mock.ok_env
                                  (PDict [("httpMethod", PStr "POST")]) eq_refl)))
             _ eq_refl eq_refl).
  - split; [reflexivity|].
    exact (proj1 (proj2 (unusable_event_rejected Mock.ok_env (Mock.event_of (PInt 7))
                           eq_refl))).
Defined.

(** ** String bodies and object bodies *)

(** X5.  A body that arrives as JSON text (API Gateway) is treated exactly
    as the object it decodes to (direct invocation), other entries of the
    event playing no part: same response, same log calls, same trace.  Text
    that does not decode is answered 400 with the decoder's message and
    nothing is logged. *)
Theorem string_body_same_as_object (E : Env) (d : list (string * pyval)) (text : string) :
  lookup "body" d = Some (PStr text) ->
  (forall b, json_loads E text = Returns (PDict b) ->
     run E (PDict d) = run E (PDict [("body", PDict b)])) /\
  (forall e, json_loads E text = Raises e -> exn_cls e = JSONDecodeError ->
     run E (PDict d) =
     (Returns (error_400 E ("Invalid JSON in request body: " ++ exn_str e)), started)).
Proof.
  intros Hb.
  assert (Hparse : parse_body E (PDict d) =
                   obind (json_loads E text) (fun parsed => Returns (inr parsed))).
  { unfold parse_body. cbn [py_in py_getitem obind]. unfold has_key. rewrite Hb.
    reflexivity. }
  split.
  - intros b Hl. apply run_depends_on_body.
    unfold extract_body. rewrite Hparse, Hl. reflexivity.
  - intros e Hl Hc. apply run_rejected_body.
    unfold extract_body. rewrite Hparse, Hl. cbn [obind]. now rewrite Hc.
Qed.

(** X5, two runs: the sample body as text inside a gateway event, and text
    that is not JSON. *)
Lemma string_body_same_as_object_witness :
  run MockMore.gateway_env
      (PDict [("httpMethod", PStr "POST"); ("body", PStr MockMore.body_text)]) =
  run MockMore.gateway_env (Mock.event_of Mock.valid_body) /\
  fst (run MockMore.gateway_env (Mock.event_of Mock.valid_body)) =
    Returns (success_response MockMore.gateway_env
               {| model := "titan"; canvas_config := PDict [];
                  input_image_size := 6; input_mask_size := 19 |}
               (PList [PStr "QUJD"]) 300) /\
  run Mock.ok_env (Mock.event_of (PStr "{not json")) =
    (Returns (error_400 Mock.ok_env
       "Invalid JSON in request body: Expecting value: line 1 column 1 (char 0)"),
     started).
Proof.
  split; [|split; [reflexivity|]].
  - exact (proj1 (string_body_same_as_object MockMore.gateway_env
                    [("httpMethod", PStr "POST"); ("body", PStr MockMore.body_text)]
                    MockMore.body_text eq_refl)
             _ eq_refl).
  - exact (proj2 (string_body_same_as_object Mock.ok_env
                    [("body", PStr "{not json")] "{not json" eq_refl)
             _ eq_refl eq_refl).
Defined.

(** ** Failures of the request builder and of the reply *)

(** X6.  When [prepare_titan_request] raises for a Titan request, the
    service is never called and exactly one failed record is logged whose
    model id is [unknown]: the assignment of [model_id] on line 171 was not
    reached, so the test ['model_id' in locals()] never holds there.  When
    that logging call returns, the answer is 400 with the message
    [Error preparing request for titan: ...]. *)
Theorem build_failure_logged_unknown (E : Env) (event body : pyval) (p : Params)
    (i : Inputs) (e : exn) :
  validated E event = Some (body, p, i) ->
  model i = "titan" ->
  prepare_titan_request E (prompt_content p) (painting_mode p)
                          (mask_base64 p) (image_base64 p) = Raises e ->
  let msg := "Error preparing request for titan: " ++ exn_str e in
  let rec := failure_record E p i "unknown" (elapsed_between E 1 0) msg in
  trace (snd (run E event)) = [EvClock 0; EvClock 1; EvLog rec] /\
  invoke_count (trace (snd (run E event))) = 0 /\
  (log_to_dynamodb E rec = Returns tt ->
   fst (run E event) = Returns (error_400 E msg)).
Proof.
  intros Hv Hm Hb msg rec.
  assert (Hm' : String.eqb (model i) "titan" = true) by now apply String.eqb_eq.
  rewrite (run_build_failed E event body p i Hv e Hm' Hb). cbv zeta.
  rewrite Hm.
  split; [reflexivity|]. split; [reflexivity|].
  intros Hl.
  match goal with
  | |- context [log_to_dynamodb E ?r] => change (log_to_dynamodb E r) with (log_to_dynamodb E rec)
  end.
  rewrite Hl. reflexivity.
Qed.

(** X6, a run: the sample request against a builder that refuses it. *)
Lemma build_failure_logged_unknown_witness :
  map model_id (records_of MockMore.broken_builder_env (Mock.event_of Mock.valid_body))
    = ["unknown"] /\
  fst (run MockMore.broken_builder_env (Mock.event_of Mock.valid_body)) =
    Returns (error_400 MockMore.broken_builder_env
               "Error preparing request for titan: Unsupported painting mode").
Proof.
  destruct (build_failure_logged_unknown MockMore.broken_builder_env
              (Mock.event_of Mock.valid_body) _ _ _ MockMore.build_error
              eq_refl eq_refl eq_refl) as (Htrace & _ & Hresp).
  split.
  - unfold records_of. rewrite Htrace. reflexivity.
  - exact (Hresp eq_refl).
Defined.

(** X7.  A reply that decodes to an object without [images] is not an
    error for the handler: [response_output.get('images')] is [None], the
    size helper is asked for the size of [None], and if it answers, a
    successful record is handed to the logger; when that logging call
    returns, the request is answered 200 with [images] null. *)
Theorem reply_without_images_succeeds (E : Env) (event body : pyval) (p : Params)
    (i : Inputs) (request_body : pyval) (reply : Reply E) (text : string)
    (fields : list (string * pyval)) (n : Z) :
  validated E event = Some (body, p, i) ->
  model i = "titan" ->
  prepare_titan_request E (prompt_content p) (painting_mode p)
                          (mask_base64 p) (image_base64 p) = Returns request_body ->
  invoke_model E request_body titan_model_id = Returns reply ->
  read_body E reply = Returns text ->
  json_loads E text = Returns (PDict fields) ->
  lookup "images" fields = None ->
  calculate_output_images_size E PNone = Returns n ->
  log_to_dynamodb E (success_record E p i n (elapsed_between E 2 1)) = Returns tt ->
  fst (run E event) = Returns (success_response E i PNone (elapsed_between E 2 1)) /\
  lookup "images" (body_fields (success_response E i PNone (elapsed_between E 2 1)))
    = Some PNone /\
  records_of E event = [success_record E p i n (elapsed_between E 2 1)].
Proof.
  intros Hv Hm Hb Hc Hbody Hjson Hnone Hsize Hlog.
  assert (Hm' : String.eqb (model i) "titan" = true) by now apply String.eqb_eq.
  assert (Hr : read_reply E reply = Returns (PNone, n)).
  { unfold read_reply. rewrite Hbody. cbn [obind]. rewrite Hjson. cbn [obind py_get].
    rewrite Hnone. cbn [obind]. now rewrite Hsize. }
  unfold records_of.
  rewrite (run_generated E event body p i Hv request_body Hm' Hb reply PNone n Hc Hr).
  cbv zeta. rewrite Hlog. repeat split.
Qed.

(** X7, a run: the service answers with an object that only has a message. *)
Lemma reply_without_images_succeeds_witness :
  fst (run MockMore.no_images_env (Mock.event_of Mock.valid_body)) =
    Returns (success_response MockMore.no_images_env
               {| model := "titan"; canvas_config := PDict [];
                  input_image_size := 6; input_mask_size := 19 |}
               PNone 300).
Proof.
  exact (proj1 (reply_without_images_succeeds MockMore.no_images_env
                  (Mock.event_of Mock.valid_body) _ _ _ _ "{}" "{}"
                  [("message", PStr "throttled")] 0%Z
                  eq_refl eq_refl eq_refl eq_refl eq_refl eq_refl eq_refl eq_refl eq_refl)).
Defined.

(** X8.  When the service answers but the reply cannot be used (its body
    cannot be read, is not JSON, is not an object, or its size cannot be
    computed), the error is handled like an invoker failure: one failed
    record with output size 0 and the error's message, its generation time
    counted from the start of the request at a fourth clock reading, and,
    when that logging call returns, a 500 whose [error] is that message.
    A reply that decodes to anything but an object fails in this way with an
    [AttributeError] for [get]. *)
Theorem unusable_reply_reported (E : Env) (event body : pyval) (p : Params)
    (i : Inputs) (request_body : pyval) (reply : Reply E) :
  validated E event = Some (body, p, i) ->
  model i = "titan" ->
  prepare_titan_request E (prompt_content p) (painting_mode p)
                          (mask_base64 p) (image_base64 p) = Returns request_body ->
  invoke_model E request_body titan_model_id = Returns reply ->
  (forall e,
      read_reply E reply = Raises e ->
      let rec := failure_record E p i titan_model_id (elapsed_between E 3 0) (exn_str e) in
      trace (snd (run E event)) =
        [EvClock 0; EvClock 1; EvInvoke request_body titan_model_id; EvClock 2;
         EvClock 3; EvLog rec] /\
      (log_to_dynamodb E rec = Returns tt ->
       fst (run E event) = Returns (upstream_failure_response E i (exn_str e)))) /\
  (forall text v,
      read_body E reply = Returns text ->
      json_loads E text = Returns v ->
      type_of v <> TDict ->
      read_reply E reply =
      Raises (Exn AttributeError (fault_msg E (NoAttribute (type_of v) "get")))).
Proof.
  intros Hv Hm Hb Hc.
  assert (Hm' : String.eqb (model i) "titan" = true) by now apply String.eqb_eq.
  split.
  - intros e Hr rec.
    rewrite (run_reply_rejected E event body p i Hv request_body Hm' Hb reply e Hc Hr).
    cbv zeta. fold rec. split; [reflexivity|]. intros Hl. now rewrite Hl.
  - intros text v Hbody Hjson Hty. unfold read_reply.
    rewrite Hbody. cbn [obind]. rewrite Hjson. cbn [obind].
    destruct v; try reflexivity. now contradiction Hty.
Qed.

(** X8, a run: the service answers with an HTML error page. *)
Lemma unusable_reply_reported_witness :
  fst (run MockMore.garbled_reply_env (Mock.event_of Mock.valid_body)) =
    Returns (upstream_failure_response MockMore.garbled_reply_env
               {| model := "titan"; canvas_config := PDict [];
                  input_image_size := 6; input_mask_size := 19 |}
               "Expecting value: line 1 column 1 (char 0)") /\
  map generation_time_ms
      (records_of MockMore.garbled_reply_env (Mock.event_of Mock.valid_body)) = [900%Z].
Proof.
  destruct (proj1 (unusable_reply_reported MockMore.garbled_reply_env
                     (Mock.event_of Mock.valid_body) _ _ _ _ "<html>Bad Gateway</html>"
                     eq_refl eq_refl eq_refl eq_refl)
              (Exn JSONDecodeError "Expecting value: line 1 column 1 (char 0)") eq_refl)
    as (Htrace & Hresp).
  split.
  - exact (Hresp eq_refl).
  - unfold records_of. rewrite Htrace. reflexivity.
Defined.

(** ** What one run does at most *)

Ltac split_logs E :=
  repeat match goal with
         | |- context [log_to_dynamodb E ?r] =>
             let Hl := fresh "Hl" in destruct (log_to_dynamodb E r) as [[]|?] eqn:Hl
         end.

(** X9.  One run reads the clock between one and four times, calls the
    service at most once (no retry) and hands at most two records to the
    logger.  The service is called only for a validated request whose model
    resolved to [titan] and whose downstream request was built; a second
    record is logged only when logging the successful one raised. *)
Theorem at_most_one_invocation (E : Env) (event : pyval) :
  (1 <= ticks (snd (run E event)) <= 4)%nat /\
  (invoke_count (trace (snd (run E event))) <= 1)%nat /\
  (length (records_of E event) <= 2)%nat /\
  (invoke_count (trace (snd (run E event))) = 1%nat ->
   exists body p i request_body,
     validated E event = Some (body, p, i) /\ model i = "titan" /\
     prepare_titan_request E (prompt_content p) (painting_mode p)
                             (mask_base64 p) (image_base64 p) = Returns request_body) /\
  (length (records_of E event) = 2%nat ->
   exists ok e, In ok (records_of E event) /\ success ok = true /\
                log_to_dynamodb E ok = Raises e).
Proof.
  destruct (validated E event) as [[[body p] i]|] eqn:Hv.
  - by_path E event body p i Hv; split_logs E;
      cbn [obind fst snd trace ticks audit_records invoke_count length];
      (split; [lia|]); (split; [lia|]); (split; [lia|]);
      (split; [intros Hn; try discriminate Hn | intros Hn; try discriminate Hn]);
      try (match goal with
           | Hm : String.eqb _ _ = true |- _ => apply String.eqb_eq in Hm
           end; do 4 eexists; repeat split; eassumption);
      try (do 2 eexists; split; [left; reflexivity|]; split; [reflexivity|]; eassumption).
  - destruct (run_not_validated E event Hv) as [Hw _].
    unfold records_of. rewrite Hw. cbn.
    repeat split; try lia; intros Hn; discriminate Hn.
Qed.

(** X9, a run: the sample request calls the service once and logs once. *)
Lemma at_most_one_invocation_witness :
  invoke_count (trace (snd (run Mock.ok_env (Mock.event_of Mock.valid_body)))) = 1%nat /\
  exists body p i request_body,
    validated Mock.ok_env (Mock.event_of Mock.valid_body) = Some (body, p, i) /\
    model i = "titan" /\
    prepare_titan_request Mock.ok_env (prompt_content p) (painting_mode p)
                            (mask_base64 p) (image_base64 p) = Returns request_body.
Proof.
  split; [reflexivity|].
  exact (proj1 (proj2 (proj2 (proj2 (at_most_one_invocation Mock.ok_env
                                       (Mock.event_of Mock.valid_body)))))
           eq_refl).
Defined.

(** ** What every audit record and every response looks like *)

(** X10.  Every record handed to the logger belongs to a validated request
    and repeats its identifier, prompt, mode and input sizes.  Its model id
    is [unknown] or the Titan id; a successful record has the Titan id and
    no error message; a failed one has output size 0 and an error message;
    and a record with model id [unknown] means the service was not called. *)
Theorem audit_records_well_formed (E : Env) (event : pyval) (r : AuditRecord) :
  In r (records_of E event) ->
  exists body p i,
    validated E event = Some (body, p, i) /\
    request_id r = uuid4 E /\
    prompt r = prompt_content p /\ mode r = painting_mode p /\
    image_size r = input_image_size i /\ mask_size r = input_mask_size i /\
    (model_id r = "unknown" \/ model_id r = titan_model_id) /\
    (success r = true -> model_id r = titan_model_id /\ error_message r = None) /\
    (success r = false -> output_size r = 0%Z /\ exists msg, error_message r = Some msg) /\
    (model_id r = "unknown" -> invoke_count (trace (snd (run E event))) = 0%nat).
Proof.
  destruct (validated E event) as [[[body p] i]|] eqn:Hv.
  - intros Hin. exists body, p, i. split; [reflexivity|]. revert Hin.
    by_path E event body p i Hv; split_logs E;
      cbn [obind fst snd trace audit_records invoke_count In];
      intros Hin;
      repeat match goal with
             | H : _ \/ _ |- _ => destruct H as [H|H]
             | H : False |- _ => contradiction H
             end;
      subst r; cbn;
      repeat split; eauto; try discriminate; intros; discriminate.
  - destruct (run_not_validated E event Hv) as [Hw _].
    unfold records_of. rewrite Hw. intros [].
Qed.

(** X10, a run: the record of the sample request with an unsupported model. *)
Lemma audit_records_well_formed_witness :
  exists r body p i,
    In r (records_of Mock.ok_env (Mock.event_of (Mock.body_with_model (PStr "DALLE")))) /\
    validated Mock.ok_env (Mock.event_of (Mock.body_with_model (PStr "DALLE")))
      = Some (body, p, i) /\
    request_id r = uuid4 Mock.ok_env /\ prompt r = prompt_content p.
Proof.
  eexists.
  destruct (audit_records_well_formed Mock.ok_env
              (Mock.event_of (Mock.body_with_model (PStr "DALLE"))) _
              (or_introl eq_refl))
    as (body & p & i & Hv & Hid & Hp & _).
  exists body, p, i. split; [left; reflexivity|]. auto.
Defined.

Lemma extract_body_shape (E : Env) (event : pyval) (resp : Response) :
  extract_body E event = inl resp ->
  exists msg extra,
    resp = respond E 400 (("error", PStr msg) :: extra) /\
    lookup "images" extra = None.
Proof.
  unfold extract_body, parse_body. intros H.
  destruct (py_in E "body" event) as [present|e]; cbn [obind] in H.
  - destruct present; cbn [negb] in H.
    + destruct (py_getitem E event "body") as [b|e]; cbn [obind] in H.
      * destruct b; try discriminate H;
          try (injection H as <-; do 2 eexists; split; reflexivity).
        destruct (json_loads E s) as [v|e]; cbn [obind] in H; [discriminate|].
        destruct (exn_cls e); injection H as <-; do 2 eexists; split; reflexivity.
      * destruct (exn_cls e); injection H as <-; do 2 eexists; split; reflexivity.
    + destruct (py_keys E event) as [ks|e]; cbn [obind] in H.
      * injection H as <-; do 2 eexists; split; reflexivity.
      * destruct (exn_cls e); injection H as <-; do 2 eexists; split; reflexivity.
  - destruct (exn_cls e); injection H as <-; do 2 eexists; split; reflexivity.
Qed.

Lemma get_params_shape (E : Env) (body : pyval) (resp : Response) :
  get_params E body = Returns (inl resp) ->
  exists msg extra,
    resp = respond E 400 (("error", PStr msg) :: extra) /\
    lookup "images" extra = None.
Proof.
  unfold get_params. intros H.
  destruct (read_params E body) as [r|e] eqn:Hr.
  - injection H as ->. unfold read_params in Hr.
    repeat split_outcome; injection Hr as <-; do 2 eexists; split; reflexivity.
  - destruct (exn_cls e); try (injection H as <-; do 2 eexists; split; reflexivity).
    destruct (py_keys E body); cbn [obind] in H; [|discriminate].
    injection H as <-; do 2 eexists; split; reflexivity.
Qed.

(** X11.  Every response the handler returns has the CORS headers and a JSON
    object as its body.  A 200 body has the generated images, [model_used]
    equal to [titan] whatever the letter case of the request, the time
    measured around the service call, and no [error]; it is only returned
    after the one successful record was logged.  Every other response has an
    [error] string and no [images]. *)
Theorem responses_well_formed (E : Env) (event : pyval) (resp : Response) :
  fst (run E event) = Returns resp ->
  headers resp = get_cors_headers E /\
  (exists payload, body resp = json_dumps (PDict payload)) /\
  (statusCode resp = 200%Z ->
   lookup "model_used" (body_fields resp) = Some (PStr "titan") /\
   lookup "generation_time_ms" (body_fields resp) = Some (PInt (elapsed_between E 2 1)) /\
   (exists images, lookup "images" (body_fields resp) = Some images) /\
   lookup "error" (body_fields resp) = None /\
   exists ok, records_of E event = [ok] /\ success ok = true) /\
  (statusCode resp <> 200%Z ->
   (exists msg, lookup "error" (body_fields resp) = Some (PStr msg)) /\
   lookup "images" (body_fields resp) = None).
Proof.
  destruct (validated E event) as [[[body p] i]|] eqn:Hv.
  - revert resp. by_path E event body p i Hv; intros resp; split_logs E;
      cbn [obind fst snd trace audit_records]; intros [= <-];
      try match goal with
          | Hm : String.eqb _ _ = true |- _ => apply String.eqb_eq in Hm
          end;
      cbn;
      (split; [reflexivity|]); (split; [eexists; reflexivity|]);
      (split; [intros Hst; try discriminate Hst; repeat split; eauto; congruence
              | intros Hst; try (now contradiction Hst); split; eauto]).
  - intros Hr.
    assert (Hshape : exists msg extra,
               resp = respond E 400 (("error", PStr msg) :: extra) /\
               lookup "images" extra = None).
    { unfold validated in Hv. revert Hr. run_handler.
      destruct (extract_body E event) as [r|b] eqn:Hx.
      - intros [= <-]. exact (extract_body_shape E event r Hx).
      - destruct (get_params E b) as [[r|p]|e] eqn:Hp.
        + intros [= <-]. exact (get_params_shape E b r Hp).
        + destruct (resolve_inputs E b); [discriminate Hv|]. intros [=].
        + intros [=]. }
    destruct Hshape as (msg & extra & -> & Hnone). cbn.
    split; [reflexivity|]. split; [eexists; reflexivity|].
    split; [intros Hc; discriminate Hc|].
    intros _. split; [eauto|exact Hnone].
Qed.

(** X11, two runs: a request for [TITAN] in capitals is answered 200 with
    [model_used] in lower case; a missing mask is answered with an [error]. *)
Lemma responses_well_formed_witness :
  (exists resp,
      fst (run Mock.ok_env (Mock.event_of (Mock.body_with_model (PStr "TITAN"))))
        = Returns resp /\
      statusCode resp = 200%Z /\
      lookup "model_used" (body_fields resp) = Some (PStr "titan")) /\
  (exists resp msg,
      fst (run Mock.ok_env (Mock.event_of Mock.body_without_mask)) = Returns resp /\
      lookup "error" (body_fields resp) = Some (PStr msg)).
Proof.
  split.
  - eexists. split; [reflexivity|]. split; [reflexivity|].
    exact (proj1 (proj1 (proj2 (proj2 (responses_well_formed Mock.ok_env
                     (Mock.event_of (Mock.body_with_model (PStr "TITAN"))) _ eq_refl)))
                   eq_refl)).
  - destruct (proj2 (proj2 (proj2 (responses_well_formed Mock.ok_env
                     (Mock.event_of Mock.body_without_mask) _ eq_refl))))
      as [[msg Hmsg] _].
    + discriminate.
    + do 2 eexists. split; [reflexivity|]. exact Hmsg.
Defined.

(** ** What a validated request is made of *)

Lemma py_getitem_dict (E : Env) (d : list (string * pyval)) (k : string) (x : pyval) :
  py_getitem E (PDict d) k = Returns x -> lookup k d = Some x.
Proof. cbn. destruct (lookup k d); [now intros [= ->] | discriminate]. Qed.

Lemma py_keys_dict (E : Env) (v : pyval) (ks : list string) :
  py_keys E v = Returns ks -> exists d, v = PDict d.
Proof. destruct v; cbn; try discriminate. eauto. Qed.

(** X12.  The parameters of a validated request are read off its body
    object: the prompt text and mode come from [body.prompt]; the builder is
    given [mask] and [base_image] with their data-URI prefix stripped,
    whereas the two input sizes are computed from the fields as they were
    received, prefix included; [canvas_config] is passed through, or is the
    empty object when absent. *)
Theorem validated_request_fields (E : Env) (event body : pyval) (p : Params) (i : Inputs) :
  validated E event = Some (body, p, i) ->
  exists d pr raw_mask raw_image,
    body = PDict d /\
    lookup "prompt" d = Some pr /\
    py_getitem E pr "text" = Returns (prompt_content p) /\
    py_getitem E pr "mode" = Returns (painting_mode p) /\
    lookup "mask" d = Some raw_mask /\
    lookup "base_image" d = Some raw_image /\
    strip_data_uri E raw_mask = Returns (mask_base64 p) /\
    strip_data_uri E raw_image = Returns (image_base64 p) /\
    calculate_base64_size E raw_mask = Returns (input_mask_size i) /\
    calculate_base64_size E raw_image = Returns (input_image_size i) /\
    canvas_config i = match lookup "canvas_config" d with
                      | Some c => c
                      | None => PDict []
                      end.
Proof.
  intros Hv. destruct (validated_inv E event body p i Hv) as (_ & Hp & Hi).
  apply get_params_inr in Hp.
  assert (Hd : exists d, body = PDict d).
  { unfold read_params in Hp. destruct (py_keys E body) as [ks|e] eqn:Hk.
    - exact (py_keys_dict E body ks Hk).
    - discriminate Hp. }
  destruct Hd as [d ->].
  unfold read_params in Hp. unfold resolve_inputs in Hi.
  repeat split_outcome.
  injection Hp as <-. injection Hi as <-.
  repeat match goal with
         | H : py_getitem E (PDict d) _ = Returns _ |- _ => apply py_getitem_dict in H
         end.
  cbn [py_get] in *.
  repeat match goal with
         | H : Returns _ = Returns _ |- _ => injection H as H
         end.
  cbn. do 4 eexists. repeat split; first [eassumption | symmetry; eassumption].
Qed.

(** X12, a run: both images arrive as data URIs of 30 characters; the builder
    gets the 8-character payload, the logged size is that of the whole field. *)
Lemma validated_request_fields_witness :
  exists p i,
    validated Mock.ok_env (Mock.event_of MockMore.body_with_uri_image)
      = Some (MockMore.body_with_uri_image, p, i) /\
    image_base64 p = PStr "QUJDREVG" /\
    input_image_size i = 22%Z /\
    Mock.b64_size (PStr "QUJDREVG") = Returns 6%Z /\
    exists d (pr raw_mask raw_image : pyval),
      MockMore.body_with_uri_image = PDict d /\
      lookup "prompt" d = Some pr /\
      lookup "base_image" d = Some raw_image /\
      strip_data_uri Mock.ok_env raw_image = Returns (image_base64 p) /\
      calculate_base64_size Mock.ok_env raw_image = Returns (input_image_size i).
Proof.
  do 2 eexists. split; [reflexivity|]. do 3 (split; [reflexivity|]).
  destruct (validated_request_fields Mock.ok_env
              (Mock.event_of MockMore.body_with_uri_image) _ _ _ eq_refl)
    as (d & pr & raw_mask & raw_image & Hd & Hp & _ & _ & _ & Hi & _ & Hs & _ & Hz & _).
  exists d, pr, raw_mask, raw_image. auto.
Defined.

(** ** The model selector *)

Lemma lower_ascii_idempotent (c : ascii) :
  PyStr.lower_ascii (PyStr.lower_ascii c) = PyStr.lower_ascii c.
Proof. destruct c as [[] [] [] [] [] [] [] []]; reflexivity. Qed.

Lemma lower_idempotent (s : string) : PyStr.lower (PyStr.lower s) = PyStr.lower s.
Proof.
  induction s as [|c rest IH]; [reflexivity|].
  cbn [PyStr.lower]. now rewrite lower_ascii_idempotent, IH.
Qed.

Lemma str_lower_ascii (E : Env) (s : string) :
  PyStr.is_ascii s = true -> str_lower E s = PyStr.lower s.
Proof. unfold str_lower. now intros ->. Qed.

(** X13.  The model of a validated request is [titan] when the body has no
    [model] entry; otherwise that entry has to be a string and the model is
    what [str.lower()] makes of it.  For an entry in ASCII this is the text
    with A-Z turned into a-z, which lower-casing leaves as it is, so that
    [TITAN], [Titan] and [titan] all select the same model. *)
Theorem model_defaults_to_titan (E : Env) (event : pyval) (d : list (string * pyval))
    (p : Params) (i : Inputs) :
  validated E event = Some (PDict d, p, i) ->
  (lookup "model" d = None -> model i = "titan") /\
  (forall m, lookup "model" d = Some m ->
             exists s, m = PStr s /\ model i = str_lower E s) /\
  (forall s, lookup "model" d = Some (PStr s) -> PyStr.is_ascii s = true ->
             model i = PyStr.lower s /\ PyStr.lower (model i) = model i /\
             (PyStr.lower s = "titan" -> model i = "titan")).
Proof.
  intros Hv. destruct (validated_inv E event (PDict d) p i Hv) as (_ & _ & Hi).
  assert (Hmodel : exists s,
             match lookup "model" d with Some x => x | None => PStr "titan" end = PStr s /\
             model i = str_lower E s).
  { unfold resolve_inputs in Hi. cbn [py_get obind] in Hi.
    destruct (match lookup "model" d with Some x => x | None => PStr "titan" end)
      as [| | | |s| |]; cbn [py_lower obind] in Hi; try discriminate Hi.
    exists s. split; [reflexivity|].
    repeat split_outcome. now injection Hi as <-. }
  destruct Hmodel as (s & Hs & Hlow).
  split; [|split].
  - intros Hnone. rewrite Hnone in Hs. injection Hs as <-. exact Hlow.
  - intros m Hm. rewrite Hm in Hs. subst m. eauto.
  - intros s' Hm Hascii. rewrite Hm in Hs. injection Hs as ->.
    rewrite (str_lower_ascii E s Hascii) in Hlow.
    split; [exact Hlow|]. split; [rewrite Hlow; apply lower_idempotent|].
    intros Ht. now rewrite Hlow.
Qed.

(** X13, two runs: no [model] entry, and [TiTaN] in mixed case. *)
Lemma model_defaults_to_titan_witness :
  (exists p i,
      validated Mock.ok_env (Mock.event_of Mock.valid_body)
        = Some (Mock.valid_body, p, i) /\ model i = "titan") /\
  (exists p i,
      validated Mock.ok_env (Mock.event_of (Mock.body_with_model (PStr "TiTaN")))
        = Some (Mock.body_with_model (PStr "TiTaN"), p, i) /\
      model i = PyStr.lower "TiTaN" /\ model i = "titan").
Proof.
  split.
  - do 2 eexists. split; [reflexivity|].
    exact (proj1 (model_defaults_to_titan Mock.ok_env
                    (Mock.event_of Mock.valid_body) _ _ _ eq_refl) eq_refl).
  - destruct (proj2 (proj2 (model_defaults_to_titan Mock.ok_env
                              (Mock.event_of (Mock.body_with_model (PStr "TiTaN")))
                              _ _ _ eq_refl))
                "TiTaN" eq_refl eq_refl) as (Hl & _ & Ht).
    do 2 eexists. split; [reflexivity|]. split; [exact Hl|exact (Ht eq_refl)].
Defined.

(** ** What the stripping hands on *)

Lemma strip_data_uri_acceptable (E : Env) (v : pyval) :
  (acceptable_field v = true ->
   exists r, strip_data_uri E v = Returns r /\
             match v with
             | PStr s => exists t, r = PStr t /\ strip_str E s = Returns t /\
                                   PyStr.comma_free t = true
             | _ => r = v
             end) /\
  (acceptable_field v = false -> exists e, strip_data_uri E v = Raises e).
Proof.
  destruct v; cbn [acceptable_field strip_data_uri py_in obind type_of];
    try (split; [discriminate|intros _; eexists; reflexivity]).
  - split; [|discriminate]. intros _.
    destruct (strip_str E s) as [t|e] eqn:Hs.
    + exists (PStr t). split; [reflexivity|]. exists t.
      split; [reflexivity|]. split; [reflexivity|].
      exact (strip_str_result_comma_free E s t Hs).
    + rewrite strip_str_closed_form in Hs. discriminate Hs.
  - destruct (existsb (is_str ",") items); cbn [negb]; split;
      try discriminate; intros _; eexists; try split; reflexivity.
  - destruct (has_key "," fields); cbn [negb]; split;
      try discriminate; intros _; eexists; try split; reflexivity.
Qed.

(** X14.  What the request builder is given as mask and as image, field by
    field.  For a validated request [mask] and [base_image] are both
    acceptable values; a string field is handed on as the comma-free string
    the stripping expression yields for it, and a list or an object (one
    without a comma among its items or keys) is handed on unchanged.  An
    object body whose [mask] or [base_image] is any other value (a number,
    a boolean, null, or a list or object with a comma item or key) is never
    validated: the handler answers 400 and logs nothing. *)
Theorem stripped_fields_comma_free (E : Env) (event : pyval) (d : list (string * pyval)) :
  (forall p i,
      validated E event = Some (PDict d, p, i) ->
      exists m im,
        lookup "mask" d = Some m /\ lookup "base_image" d = Some im /\
        acceptable_field m = true /\ acceptable_field im = true /\
        match m with
        | PStr s => exists r, mask_base64 p = PStr r /\ strip_str E s = Returns r /\
                              PyStr.comma_free r = true
        | _ => mask_base64 p = m
        end /\
        match im with
        | PStr s => exists r, image_base64 p = PStr r /\ strip_str E s = Returns r /\
                              PyStr.comma_free r = true
        | _ => image_base64 p = im
        end) /\
  (forall v,
      extract_body E event = inr (PDict d) ->
      lookup "mask" d = Some v \/ lookup "base_image" d = Some v ->
      acceptable_field v = false ->
      exists resp,
        run E event = (Returns resp, started) /\
        statusCode resp = 400%Z /\
        records_of E event = []).
Proof.
  split.
  - intros p i Hv.
    destruct (validated_inv E event (PDict d) p i Hv) as (_ & Hp & _).
    apply get_params_inr, read_params_fields in Hp.
    destruct Hp as (m & im & Hm & Him & Hsm & Hsim).
    apply py_getitem_dict in Hm. apply py_getitem_dict in Him.
    exists m, im. split; [exact Hm|]. split; [exact Him|].
    destruct (strip_data_uri_acceptable E m) as [Hyes Hno].
    destruct (strip_data_uri_acceptable E im) as [Hyes' Hno'].
    destruct (acceptable_field m) eqn:Ham.
    + destruct (acceptable_field im) eqn:Haim.
      * split; [reflexivity|]. split; [reflexivity|].
        destruct (Hyes eq_refl) as (r & Hr & Hshape).
        destruct (Hyes' eq_refl) as (r' & Hr' & Hshape').
        rewrite Hsm in Hr. injection Hr as <-.
        rewrite Hsim in Hr'. injection Hr' as <-.
        split; [exact Hshape|exact Hshape'].
      * destruct (Hno' eq_refl) as [e He]. congruence.
    + destruct (Hno eq_refl) as [e He]. congruence.
  - intros v Hx Hfield Hbad.
    destruct (strip_data_uri_acceptable E v) as [_ Hno].
    destruct (Hno Hbad) as [e He].
    destruct (get_params_returns E (PDict d)) as [[resp|p] Hg].
    + exists resp.
      pose proof (run_rejected_params E event (PDict d) resp Hx Hg) as Hrun.
      split; [exact Hrun|].
      split; [exact (proj1 (get_params_400 E (PDict d) resp Hg))|].
      unfold records_of. now rewrite Hrun.
    + apply get_params_inr, read_params_fields in Hg.
      destruct Hg as (m & im & Hm & Him & Hsm & Hsim).
      apply py_getitem_dict in Hm. apply py_getitem_dict in Him.
      destruct Hfield as [Hf|Hf]; congruence.
Qed.

(** X14, two runs: the sample request, whose mask is a data URI, and the
    same request with a number as its mask. *)
Lemma stripped_fields_comma_free_witness :
  (exists p i,
      validated Mock.ok_env (Mock.event_of Mock.valid_body) = Some (Mock.valid_body, p, i) /\
      mask_base64 p = PStr "AAAA" /\
      strip_str Mock.ok_env "data:image/png;base64,AAAA" = Returns "AAAA") /\
  (exists resp,
      run Mock.ok_env
          (Mock.event_of (PDict [("prompt", Mock.cat_prompt); ("mask", PInt 7);
                                 ("base_image", PStr "QUJDREVG")]))
        = (Returns resp, started) /\
      statusCode resp = 400%Z).
Proof.
  split.
  - destruct (proj1 (stripped_fields_comma_free Mock.ok_env (Mock.event_of Mock.valid_body)
                       _) _ _ eq_refl)
      as (m & im & Hm & _ & _ & _ & Hmask & _).
    injection Hm as <-. destruct Hmask as (r & Hp & Hs & _).
    do 2 eexists. split; [reflexivity|]. split; reflexivity.
  - destruct (proj2 (stripped_fields_comma_free Mock.ok_env
                       (Mock.event_of (PDict [("prompt", Mock.cat_prompt); ("mask", PInt 7);
                                              ("base_image", PStr "QUJDREVG")]))
                       _) (PInt 7) eq_refl (or_introl eq_refl) eq_refl)
      as (resp & Hrun & Hcode & _).
    exists resp. split; assumption.
Defined.

(** ** Splitting on commas *)

Lemma split_comma_nonempty (s : string) : PyStr.split_comma s <> [].
Proof. rewrite split_comma_shape. discriminate. Qed.

Lemma concat_cons_char (c : ascii) (seg : string) (segs : list string) :
  String.concat "," (String c seg :: segs) = String c (String.concat "," (seg :: segs)).
Proof. destruct segs; reflexivity. Qed.

(** X15.  The segments [s.split(",")] yields are comma-free, joining them
    with commas gives [s] back, and there is one more segment than there are
    commas; so the second segment exists exactly when [s] has a comma, which
    is why the index [1] of line 105 is always in range. *)
Theorem split_comma_join (s : string) :
  String.concat "," (PyStr.split_comma s) = s /\
  Forall (fun seg => PyStr.comma_free seg = true) (PyStr.split_comma s) /\
  (PyStr.contains "," s = true <-> nth_error (PyStr.split_comma s) 1 <> None).
Proof.
  split; [|split].
  - induction s as [|c rest IH]; [reflexivity|].
    cbn [PyStr.split_comma].
    destruct (Ascii.eqb_spec c PyStr.comma) as [->|Hc].
    + pose proof (split_comma_nonempty rest) as Hne.
      destruct (PyStr.split_comma rest) as [|seg segs]; [contradiction|].
      cbn [String.concat] in *. now rewrite IH.
    + destruct (PyStr.split_comma rest) as [|seg segs] eqn:Hs.
      * now contradiction (split_comma_nonempty rest).
      * rewrite concat_cons_char. now rewrite IH.
  - induction s as [|c rest IH]; [repeat constructor|].
    cbn [PyStr.split_comma].
    destruct (Ascii.eqb c PyStr.comma) eqn:Hc.
    + constructor; [reflexivity|exact IH].
    + destruct (PyStr.split_comma rest) as [|seg segs].
      * constructor; [cbn; now rewrite Hc|constructor].
      * inversion IH as [|x l Hseg Hsegs]; subst.
        constructor; [cbn [PyStr.comma_free]; now rewrite Hc, Hseg|exact Hsegs].
  - rewrite contains_comma, split_comma_shape.
    destruct (PyStr.comma_free s); cbn [negb nth_error].
    + split; [discriminate|]. intros H. now contradiction H.
    + rewrite split_comma_shape. cbn [nth_error]. split; [discriminate|reflexivity].
Qed.

(** ** The request identifier only labels *)

(** X16.  With a logger that returns normally, the identifier drawn for a
    request changes nothing but the label: a run under another identifier
    logs the same records under the other identifier, reads the clock and
    calls the service in the same way, and answers with the same status. *)
Theorem uuid_only_labels (E : Env) (u : string) (event : pyval) :
  (forall r, log_to_dynamodb E r = Returns tt) ->
  records_of (with_uuid u E) event = map (with_request_id u) (records_of E event) /\
  ticks (snd (run (with_uuid u E) event)) = ticks (snd (run E event)) /\
  invoke_count (trace (snd (run (with_uuid u E) event))) =
    invoke_count (trace (snd (run E event))) /\
  (forall resp, fst (run E event) = Returns resp ->
     exists resp', fst (run (with_uuid u E) event) = Returns resp' /\
                   statusCode resp' = statusCode resp).
Proof.
  intros Hlog.
  assert (Hlog' : forall r, log_to_dynamodb (with_uuid u E) r = Returns tt) by exact Hlog.
  destruct (validated E event) as [[[body p] i]|] eqn:Hv.
  - pose proof (validated_with_uuid u E event) as Hv'. rewrite Hv in Hv'.
    unfold records_of.
    destruct (String.eqb (model i) "titan") eqn:Hm.
    + destruct (prepare_titan_request E (prompt_content p) (painting_mode p)
                  (mask_base64 p) (image_base64 p)) as [rb|e] eqn:Hb.
      * destruct (invoke_model E rb titan_model_id) as [reply|e] eqn:Hc.
        -- destruct (read_reply E reply) as [[images out]|e] eqn:Hr.
           ++ rewrite (run_generated E event body p i Hv rb Hm Hb reply images out Hc Hr),
                (run_generated (with_uuid u E) event body p i Hv' rb Hm Hb reply images out
                   Hc Hr).
              cbv zeta. rewrite Hlog, Hlog'. cbn.
              repeat split. intros resp [= <-]. eexists. split; reflexivity.
           ++ rewrite (run_reply_rejected E event body p i Hv rb Hm Hb reply e Hc Hr),
                (run_reply_rejected (with_uuid u E) event body p i Hv' rb Hm Hb reply e
                   Hc Hr).
              cbv zeta. rewrite Hlog, Hlog'. cbn.
              repeat split. intros resp [= <-]. eexists. split; reflexivity.
        -- rewrite (run_invoker_failed E event body p i Hv rb Hm Hb e Hc),
             (run_invoker_failed (with_uuid u E) event body p i Hv' rb Hm Hb e Hc).
           cbv zeta. rewrite Hlog, Hlog'. cbn.
           repeat split. intros resp [= <-]. eexists. split; reflexivity.
      * rewrite (run_build_failed E event body p i Hv e Hm Hb),
          (run_build_failed (with_uuid u E) event body p i Hv' e Hm Hb).
        cbv zeta. rewrite Hlog, Hlog'. cbn.
        repeat split. intros resp [= <-]. eexists. split; reflexivity.
    + rewrite (run_unsupported E event body p i Hv Hm),
        (run_unsupported (with_uuid u E) event body p i Hv' Hm).
      cbv zeta. rewrite Hlog, Hlog'. cbn.
      repeat split. intros resp [= <-]. eexists. split; reflexivity.
  - pose proof (validated_with_uuid u E event) as Hv'. rewrite Hv in Hv'.
    destruct (run_not_validated E event Hv) as [Hw _].
    destruct (run_not_validated (with_uuid u E) event Hv') as [Hw' Hst'].
    unfold records_of. rewrite Hw, Hw'. do 3 (split; [reflexivity|]).
    intros resp Hr.
    assert (Hsame : fst (run (with_uuid u E) event) = fst (run E event)).
    { unfold validated in Hv. run_handler.
      change (extract_body (with_uuid u E) event) with (extract_body E event).
      destruct (extract_body E event) as [r|b]; [reflexivity|].
      change (get_params (with_uuid u E) b) with (get_params E b).
      change (resolve_inputs (with_uuid u E) b) with (resolve_inputs E b).
      destruct (get_params E b) as [[r|p]|e]; try reflexivity.
      destruct (resolve_inputs E b) as [i|e]; [discriminate Hv|reflexivity]. }
    exists resp. split; [now rewrite Hsame|reflexivity].
Qed.

(** X16, a run: the sample request under two identifiers. *)
Lemma uuid_only_labels_witness :
  map request_id (records_of (with_uuid "another-id" Mock.ok_env)
                    (Mock.event_of Mock.valid_body)) = ["another-id"] /\
  records_of (with_uuid "another-id" Mock.ok_env) (Mock.event_of Mock.valid_body) =
    map (with_request_id "another-id")
        (records_of Mock.ok_env (Mock.event_of Mock.valid_body)).
Proof.
  split; [reflexivity|].
  exact (proj1 (uuid_only_labels Mock.ok_env "another-id" (Mock.event_of Mock.valid_body)
                  (fun _ => eq_refl))).
Defined.
